(** * DeepFaceLive backend data plane: [apps/DeepFaceLive/backend/BackendBase.py]

    A shallow embedding of the classes of [BackendBase.py]
    ([BackendConnectionData], [BackendConnection], [BackendSignal],
    [BackendHost], [BackendWorker]) and the properties the specification
    states about them.

    Python objects are records, the dictionaries of an envelope are finite
    maps, methods that mutate [self] or the shared heap are computations in a
    state-and-exception monad, and Python integers are [Z]. *)

From stdpp Require Import gmap strings list fin_maps functions.
From Stdlib Require Import ZArith NArith QArith Strings.Byte.

Local Open Scope Z_scope.

(** ** Python values, exceptions and the method monad *)

Module Py.

(** [bytes], [bytearray] and [memoryview] contents. *)
Definition bytes : Type := list byte.

(** The exceptions the modelled code raises. *)
Inductive exn : Type :=
| ValueError (msg : string)
| AttributeError (msg : string)
| TypeError (msg : string).

(** Outcome of a call: a returned value or a raised exception. *)
Inductive result (A : Type) : Type :=
| Ret (a : A)
| Raise (e : exn).
Global Arguments Ret {A} a.
Global Arguments Raise {A} e.

(** A method is a state transformer that returns or raises; the state it
    leaves behind is kept in both cases, as after a Python exception. *)
Definition M (S A : Type) : Type := S → result A * S.

Global Instance M_ret {S} : MRet (M S) := λ A a s, (Ret a, s).
Global Instance M_bind {S} : MBind (M S) := λ A B f m s,
  match m s with
  | (Ret a, s') => f a s'
  | (Raise e, s') => (Raise e, s')
  end.

Definition raise {S A} (e : exn) : M S A := λ s, (Raise e, s).
(** A call that touches no state. *)
Definition pure_call {S A} (r : result A) : M S A := λ s, (r, s).
Definition gets {S A} (f : S → A) : M S A := λ s, (Ret (f s), s).
Definition modify {S} (f : S → S) : M S unit := λ s, (Ret tt, f s).

(** Text of the error Python gives for a method call on [None]. *)
Definition none_has_no_attribute (attr : string) : exn :=
  AttributeError ("'NoneType' object has no attribute '" +:+ attr +:+ "'").

End Py.
Import Py.

(** ** The shared weak heap ([xlib.mp.MPWeakHeap]) *)

(** Modelled from the spec: the class [MPWeakHeap] of [xlib.mp] is not part of
    the sources at hand.  Its interface is taken from section 4.1 of the
    specification: [add_data(bytes) -> HeapHandle] never blocks and never
    rejects, [get_data(handle) -> bytes | absent].  [H] is the state of one
    heap, [Ref] the handle value that travels inside envelopes. *)
Class WeakHeap (H Ref : Type) : Type := {
  add_data : bytes → H → Ref * H;
  get_data : Ref → H → option bytes
}.

(** Heap objects are identified by a number; every process-visible heap
    object has a state. *)
Definition heap_id : Type := nat.

(** ** The part of numpy the envelope uses *)

Module np.

(** Element types, with their size in bytes. *)
Inductive dtype : Type :=
| bool_ | uint8 | int8 | uint16 | int16 | float16
| uint32 | int32 | float32 | uint64 | int64 | float64.

Global Instance dtype_eq_dec : EqDecision dtype.
Proof. solve_decision. Defined.

Definition itemsize (t : dtype) : N :=
  match t with
  | bool_ | uint8 | int8 => 1
  | uint16 | int16 | float16 => 2
  | uint32 | int32 | float32 => 4
  | uint64 | int64 | float64 => 8
  end%N.

(** Number of elements of an array of the given shape; [()] has one. *)
Definition size (shape : list N) : N := foldr N.mul 1%N shape.

Definition nbytes (shape : list N) (t : dtype) : N :=
  (size shape * itemsize t)%N.

(** A C-contiguous array: [image.shape], [image.dtype] and the bytes behind
    [image.data]. *)
Record ndarray : Type := mk_ndarray {
  shape : list N;
  dtype_of : dtype;
  data : bytes
}.

(** Every array numpy hands out owns exactly [nbytes] bytes. *)
Definition well_formed (a : ndarray) : Prop :=
  N.of_nat (length (data a)) = nbytes (shape a) (dtype_of a).

(** [np.ndarray(shape, dtype=dtype, buffer=buffer)]: a view of the first
    [nbytes] bytes of [buffer]; numpy raises [TypeError] when the buffer is
    shorter than that. *)
Definition ndarray_of_buffer (shape : list N) (t : dtype) (buffer : bytes)
  : result ndarray :=
  if (N.of_nat (length buffer) <? nbytes shape t)%N
  then Raise (TypeError "buffer is too small for requested array")
  else Ret (mk_ndarray shape t (take (N.to_nat (nbytes shape t)) buffer)).

End np.

(** ** [class BackendConnectionData] *)

Module BackendConnectionData.

Section Envelope.
(** [FaceMark] is [xlib.facemeta.FaceMark]; [Float] is Python's [float]. *)
Context {FaceMark Float : Type}.
Context {H Ref : Type} `{!WeakHeap H Ref}.

(** The instance dictionary: one field per attribute set in [__init__]. *)
Record t : Type := mk {
  _weak_heap : option heap_id;
  _weak_heap_refs : gmap string Ref;
  _weak_heap_image_infos : gmap string (list N * np.dtype);
  _uid : Z;
  _is_frame_reemitted : option bool;
  _frame_name : option string;
  _frame_count : option Z;
  _frame_num : option Z;
  _frame_fps : option Float;
  _frame_timestamp : option Float;
  _merged_frame_name : option string;
  _face_mark_list : list FaceMark
}.

Definition __init__ (uid : Z) : t :=
  {| _weak_heap := None;
     _weak_heap_refs := ∅;
     _weak_heap_image_infos := ∅;
     _uid := uid;
     _is_frame_reemitted := None;
     _frame_name := None;
     _frame_count := None;
     _frame_num := None;
     _frame_fps := None;
     _frame_timestamp := None;
     _merged_frame_name := None;
     _face_mark_list := [] |}.

(** Attribute assignments [self._x = v]. *)
Definition with_weak_heap (v : option heap_id) (self : t) : t :=
  mk v (_weak_heap_refs self) (_weak_heap_image_infos self) (_uid self)
     (_is_frame_reemitted self) (_frame_name self) (_frame_count self)
     (_frame_num self) (_frame_fps self) (_frame_timestamp self)
     (_merged_frame_name self) (_face_mark_list self).

Definition with_weak_heap_refs (v : gmap string Ref) (self : t) : t :=
  mk (_weak_heap self) v (_weak_heap_image_infos self) (_uid self)
     (_is_frame_reemitted self) (_frame_name self) (_frame_count self)
     (_frame_num self) (_frame_fps self) (_frame_timestamp self)
     (_merged_frame_name self) (_face_mark_list self).

Definition with_weak_heap_image_infos
    (v : gmap string (list N * np.dtype)) (self : t) : t :=
  mk (_weak_heap self) (_weak_heap_refs self) v (_uid self)
     (_is_frame_reemitted self) (_frame_name self) (_frame_count self)
     (_frame_num self) (_frame_fps self) (_frame_timestamp self)
     (_merged_frame_name self) (_face_mark_list self).

Definition with_face_mark_list (v : list FaceMark) (self : t) : t :=
  mk (_weak_heap self) (_weak_heap_refs self) (_weak_heap_image_infos self)
     (_uid self) (_is_frame_reemitted self) (_frame_name self)
     (_frame_count self) (_frame_num self) (_frame_fps self)
     (_frame_timestamp self) (_merged_frame_name self) v.

(** [__getstate__]: a copy of the instance dictionary whose [_weak_heap]
    entry is [None]. *)
Definition __getstate__ (self : t) : t :=
  let d := self in
  with_weak_heap None d.

(** What a method sees: the heap objects of the process and [self]. *)
Definition world : Type := (heap_id → H) * t.

Definition self_ {A} (f : t → A) : M world A := gets (λ w, f w.2).

(** [self._weak_heap.<attr>]: the bound heap object, or the
    [AttributeError] of an attribute access on [None]. *)
Definition weak_heap_attr (attr : string) : M world heap_id :=
  o ← self_ _weak_heap;
  match o with
  | Some l => mret l
  | None => raise (none_has_no_attribute attr)
  end.

Definition call_add_data (l : heap_id) (d : bytes) : M world Ref :=
  λ '(hs, self), let '(ref, h') := add_data d (hs l) in
                 (Ret ref, (<[l := h']> hs, self)).

Definition call_get_data (l : heap_id) (ref : Ref) : M world (option bytes) :=
  gets (λ w, get_data ref (w.1 l)).

Definition assign_weak_heap (weak_heap : heap_id) : M world unit :=
  modify (λ w, (w.1, with_weak_heap (Some weak_heap) w.2)).

Definition set_file (name : string) (d : bytes) : M world unit :=
  l ← weak_heap_attr "add_data";
  ref ← call_add_data l d;
  modify (λ w, (w.1, with_weak_heap_refs (<[name := ref]> (_weak_heap_refs w.2)) w.2)).

Definition get_file (name : string) : M world (option bytes) :=
  ref ← self_ (λ self, _weak_heap_refs self !! name);
  match ref with
  | Some ref =>
      l ← weak_heap_attr "get_data";
      call_get_data l ref
  | None => mret None
  end.

Definition set_image (name : string) (image : np.ndarray) : M world unit :=
  _ ← set_file name (np.data image);
  modify (λ w, (w.1, with_weak_heap_image_infos
                       (<[name := (np.shape image, np.dtype_of image)]>
                          (_weak_heap_image_infos w.2)) w.2)).

(** [name] may be [None] here: the method tests for it. *)
Definition get_image (name : option string) : M world (option np.ndarray) :=
  match name with
  | None => mret None
  | Some name =>
      image_info ← self_ (λ self, _weak_heap_image_infos self !! name);
      buffer ← get_file name;
      match image_info, buffer with
      | Some (shape, dtype), Some buffer =>
          arr ← pure_call (np.ndarray_of_buffer shape dtype buffer);
          mret (Some arr)
      | _, _ => mret None
      end
  end.

(** A Python object handed to [add_face_mark]: an instance of [FaceMark]
    (or of a subclass), or anything else. *)
Inductive pyobj : Type :=
| PyNone
| PyBool (b : bool)
| PyInt (z : Z)
| PyStr (s : string)
| PyBytes (b : bytes)
| PyFaceMark (fm : FaceMark).

(** [isinstance(o, FaceMark)], with the instance when it holds. *)
Definition isinstance_FaceMark (o : pyobj) : option FaceMark :=
  match o with
  | PyFaceMark fm => Some fm
  | _ => None
  end.

Definition get_face_mark_list : M world (list FaceMark) :=
  self_ _face_mark_list.

Definition add_face_mark (face_mark : pyobj) : M world unit :=
  match isinstance_FaceMark face_mark with
  | None => raise (ValueError "face_mark must be an instance of FaceMark")
  | Some fm =>
      modify (λ w, (w.1, with_face_mark_list (_face_mark_list w.2 ++ [fm]) w.2))
  end.

(** The scalar fields: plain accessors, no validation. *)
Definition get_uid : M world Z := self_ _uid.

Definition with_is_frame_reemitted (v : option bool) (self : t) : t :=
  mk (_weak_heap self) (_weak_heap_refs self) (_weak_heap_image_infos self)
     (_uid self) v (_frame_name self) (_frame_count self) (_frame_num self)
     (_frame_fps self) (_frame_timestamp self) (_merged_frame_name self)
     (_face_mark_list self).

Definition get_is_frame_reemitted : M world (option bool) := self_ _is_frame_reemitted.
Definition set_is_frame_reemitted (is_frame_reemitted : bool) : M world unit :=
  modify (λ w, (w.1, with_is_frame_reemitted (Some is_frame_reemitted) w.2)).

Definition with_frame_name (v : option string) (self : t) : t :=
  mk (_weak_heap self) (_weak_heap_refs self) (_weak_heap_image_infos self)
     (_uid self) (_is_frame_reemitted self) v (_frame_count self)
     (_frame_num self) (_frame_fps self) (_frame_timestamp self)
     (_merged_frame_name self) (_face_mark_list self).

Definition get_frame_name : M world (option string) := self_ _frame_name.
Definition set_frame_name (frame_name : string) : M world unit :=
  modify (λ w, (w.1, with_frame_name (Some frame_name) w.2)).

Definition with_frame_count (v : option Z) (self : t) : t :=
  mk (_weak_heap self) (_weak_heap_refs self) (_weak_heap_image_infos self)
     (_uid self) (_is_frame_reemitted self) (_frame_name self) v
     (_frame_num self) (_frame_fps self) (_frame_timestamp self)
     (_merged_frame_name self) (_face_mark_list self).

Definition get_frame_count : M world (option Z) := self_ _frame_count.
Definition set_frame_count (frame_count : Z) : M world unit :=
  modify (λ w, (w.1, with_frame_count (Some frame_count) w.2)).

Definition with_frame_num (v : option Z) (self : t) : t :=
  mk (_weak_heap self) (_weak_heap_refs self) (_weak_heap_image_infos self)
     (_uid self) (_is_frame_reemitted self) (_frame_name self)
     (_frame_count self) v (_frame_fps self) (_frame_timestamp self)
     (_merged_frame_name self) (_face_mark_list self).

Definition get_frame_num : M world (option Z) := self_ _frame_num.
Definition set_frame_num (frame_num : Z) : M world unit :=
  modify (λ w, (w.1, with_frame_num (Some frame_num) w.2)).

Definition with_frame_fps (v : option Float) (self : t) : t :=
  mk (_weak_heap self) (_weak_heap_refs self) (_weak_heap_image_infos self)
     (_uid self) (_is_frame_reemitted self) (_frame_name self)
     (_frame_count self) (_frame_num self) v (_frame_timestamp self)
     (_merged_frame_name self) (_face_mark_list self).

Definition get_frame_fps : M world (option Float) := self_ _frame_fps.
Definition set_frame_fps (frame_fps : Float) : M world unit :=
  modify (λ w, (w.1, with_frame_fps (Some frame_fps) w.2)).

Definition with_frame_timestamp (v : option Float) (self : t) : t :=
  mk (_weak_heap self) (_weak_heap_refs self) (_weak_heap_image_infos self)
     (_uid self) (_is_frame_reemitted self) (_frame_name self)
     (_frame_count self) (_frame_num self) (_frame_fps self) v
     (_merged_frame_name self) (_face_mark_list self).

Definition get_frame_timestamp : M world (option Float) := self_ _frame_timestamp.
Definition set_frame_timestamp (frame_timestamp : Float) : M world unit :=
  modify (λ w, (w.1, with_frame_timestamp (Some frame_timestamp) w.2)).

Definition with_merged_frame_name (v : option string) (self : t) : t :=
  mk (_weak_heap self) (_weak_heap_refs self) (_weak_heap_image_infos self)
     (_uid self) (_is_frame_reemitted self) (_frame_name self)
     (_frame_count self) (_frame_num self) (_frame_fps self)
     (_frame_timestamp self) v (_face_mark_list self).

Definition get_merged_frame_name : M world (option string) := self_ _merged_frame_name.
Definition set_merged_frame_name (merged_frame_name : string) : M world unit :=
  modify (λ w, (w.1, with_merged_frame_name (Some merged_frame_name) w.2)).

End Envelope.

Global Arguments t : clear implicits.
Global Arguments pyobj : clear implicits.
Global Arguments world : clear implicits.

End BackendConnectionData.

(** ** [pickle] on envelopes *)

Module pickle.
Section Pickle.
Context {FaceMark Float Ref : Type}.
Abbreviation bcd := (BackendConnectionData.t FaceMark Float Ref).

(** The byte string [pickle.dumps] produces for an envelope, kept as the
    state it encodes: the class has [__getstate__] and no [__setstate__],
    so the bytes carry what [__getstate__] returns and [pickle.loads]
    makes an instance whose dictionary is that state, without running
    [__init__]. *)
Inductive pickled : Type := Pickled (state : bcd).

Definition dumps (o : bcd) : pickled :=
  Pickled (BackendConnectionData.__getstate__ o).

Definition loads (b : pickled) : bcd :=
  match b with Pickled state => state end.

End Pickle.
Global Arguments pickled : clear implicits.
End pickle.

(** ** The ring ([xlib.mp.MPSPSCMRRingData]) *)

Module MPSPSCMRRingData.
Section Ring.
(** The records are opaque to the ring. *)
Context {R : Type}.

(** Modelled from the spec: the class [MPSPSCMRRingData] of [xlib.mp] is
    not part of the sources at hand.  Section 4.2 of the specification
    gives a table of [table_size] slots used in circular order, a write
    cursor [write_id] that numbers the records from 0, and a cursor
    [read_id] per reader; this is the view of one reader. *)
Record t : Type := mk {
  table_size : Z;
  heap_size_mb : Z;
  multi_producer : bool;
  write_id : Z;
  read_id : Z;
  table : gmap Z (Z * R)
}.

(** Modelled from the spec: a new ring is empty, with both cursors at 0 and
    the configuration it is given. *)
Definition __init__ (table_size heap_size_mb : Z) (multi_producer : bool) : t :=
  mk table_size heap_size_mb multi_producer 0 0 ∅.

(** Modelled from the spec: [get_write_id] and the reader's [get_read_id]
    expose the two counters. *)
Definition get_write_id (rd : t) : Z := write_id rd.
Definition get_read_id (rd : t) : Z := read_id rd.

(** Modelled from the spec: [write] puts the record in the next slot in
    circular order under the next [write_id] and advances the cursor; a
    full table does not stop it, the oldest slot is overwritten. *)
Definition write (b : R) (rd : t) : t :=
  mk (table_size rd) (heap_size_mb rd) (multi_producer rd)
     (write_id rd + 1) (read_id rd)
     (<[write_id rd `mod` table_size rd := (write_id rd, b)]> (table rd)).

(** Modelled from the spec: [get_by_id] is absent when the slot of [id]
    holds another sequence number (never written, or overwritten). *)
Definition get_by_id (id : Z) (rd : t) : option R :=
  match table rd !! (id `mod` table_size rd) with
  | Some (i, b) => if decide (i = id) then Some b else None
  | None => None
  end.

(** Modelled from the spec: [wait_for_read] reports whether a record is
    ready for this reader; no writer runs during the wait. *)
Definition wait_for_read {T} (timeout : T) (rd : t) : bool :=
  read_id rd <? write_id rd.

(** Modelled from the spec: [read] returns the next record of this reader
    and advances its cursor; records overwritten before the cursor reached
    them are skipped; with nothing to read the result is absent. *)
Definition read {T} (timeout : T) (rd : t) : option R * t :=
  if wait_for_read timeout rd then
    let id := read_id rd `max` (write_id rd - table_size rd) in
    (get_by_id id rd,
     mk (table_size rd) (heap_size_mb rd) (multi_producer rd)
        (write_id rd) (id + 1) (table rd))
  else (None, rd).

End Ring.
Global Arguments t : clear implicits.
End MPSPSCMRRingData.

(** ** [class BackendConnection] *)

Module BackendConnection.
Section Connection.
Context {FaceMark Float Ref : Type}.
Abbreviation bcd := (BackendConnectionData.t FaceMark Float Ref).
Abbreviation ring := (MPSPSCMRRingData.t (pickle.pickled FaceMark Float Ref)).

Record t : Type := mk { _rd : ring }.

Definition __init__ (multi_producer : bool) : t :=
  {| _rd := MPSPSCMRRingData.__init__ 8192 8 multi_producer |}.

(** [BackendConnection()]: [multi_producer] takes its default. *)
Definition __init__default : t := __init__ false.

Definition write (o : bcd) (self : t) : t :=
  {| _rd := MPSPSCMRRingData.write (pickle.dumps o) (_rd self) |}.

Definition read {T} (timeout : T) (self : t) : option bcd * t :=
  let '(b, rd) := MPSPSCMRRingData.read timeout (_rd self) in
  (match b with
   | Some b => Some (pickle.loads b)
   | None => None
   end, {| _rd := rd |}).

Definition get_write_id (self : t) : Z :=
  MPSPSCMRRingData.get_write_id (_rd self).

Definition get_by_id (id : Z) (self : t) : option bcd :=
  match MPSPSCMRRingData.get_by_id id (_rd self) with
  | Some b => Some (pickle.loads b)
  | None => None
  end.

Definition wait_for_read {T} (timeout : T) (self : t) : bool :=
  MPSPSCMRRingData.wait_for_read timeout (_rd self).

Definition is_full_read (buffer_size : Z) (self : t) : bool :=
  MPSPSCMRRingData.get_read_id (_rd self)
    >=? MPSPSCMRRingData.get_write_id (_rd self) - buffer_size.

(** [is_full_read()]: [buffer_size] takes its default. *)
Definition is_full_read_default (self : t) : bool := is_full_read 0 self.

(** What the ring was configured with. *)
Definition config (self : t) : Z * Z * bool :=
  (MPSPSCMRRingData.table_size (_rd self),
   MPSPSCMRRingData.heap_size_mb (_rd self),
   MPSPSCMRRingData.multi_producer (_rd self)).

(** The calls a process can make on a connection, and their effect on it. *)
Inductive call : Type :=
| Write (o : bcd)
| Read (timeout : Float)
| GetWriteId
| GetById (id : Z)
| WaitForRead (timeout : Float)
| IsFullRead (buffer_size : Z).

Definition after (c : call) (self : t) : t :=
  match c with
  | Write o => write o self
  | Read timeout => (read timeout self).2
  | GetWriteId | GetById _ | WaitForRead _ | IsFullRead _ => self
  end.

Definition after_all (cs : list call) (self : t) : t :=
  foldl (λ s c, after c s) self cs.

End Connection.
Global Arguments t : clear implicits.
Global Arguments call : clear implicits.
End BackendConnection.

(** ** [class BackendSignal] *)

Module BackendSignal.

(** [multiprocessing.Event]: a flag, here with [set], [is_set], [clear]. *)
Record t : Type := mk { _ev : bool }.

Definition __init__ : t := {| _ev := false |}.

Definition send (self : t) : t := {| _ev := true |}.

Definition recv (self : t) : bool * t :=
  let is_set := _ev self in
  if is_set then (is_set, {| _ev := false |}) else (is_set, self).

(** [n] calls of [send] in a row. *)
Definition send_n (n : nat) (self : t) : t := Nat.iter n send self.

End BackendSignal.

(** ** The timing side channel: [xlib.time.AverageMeasurer],
       [xlib.python.EventListener], [BackendWorker], [BackendHost] *)

Module AverageMeasurer.

Local Open Scope Q_scope.

(** Modelled from the spec: the class [AverageMeasurer] of [xlib.time] is
    not part of the sources at hand.  Section 4.6 of the specification
    gives a rolling average of the last [samples] measured durations, a
    measurement being bracketed by [start] and [stop].  Clock readings are
    arguments, and durations are exact rationals. *)
Record t : Type := mk {
  samples : nat;
  _ts : option Q;
  _measures : list Q
}.

(** Modelled from the spec: a new measurer has measured nothing. *)
Definition __init__ (samples : nat) : t := mk samples None [].

(** Modelled from the spec: [start] opens a measurement at the clock
    reading [now]. *)
Definition start (now : Q) (self : t) : t :=
  mk (samples self) (Some now) (_measures self).

(** The last [n] elements of [l], all of [l] when it has fewer. *)
Definition last_n {A} (n : nat) (l : list A) : list A :=
  drop (length l - n) l.

(** The mean of the durations in [l]. *)
Definition average (l : list Q) : Q :=
  foldr Qplus 0 l / inject_Z (Z.of_nat (length l)).

(** Modelled from the spec: [stop] closes the measurement the last [start]
    opened, if one is open: its duration joins the durations kept, of which
    only the last [samples] stay.  It returns the average of the durations
    kept.  A [stop] that closes nothing measures nothing. *)
Definition stop (now : Q) : M t Q := λ self,
  let measures :=
    match _ts self with
    | Some t0 => last_n (samples self) (_measures self ++ [now - t0])
    | None => _measures self
    end in
  (Ret (average measures), mk (samples self) None measures).

End AverageMeasurer.

Module EventListener.
Section Listener.
(** Listeners take the argument of the event and act on the state [U] of
    the process they live in. *)
Context {A U : Type}.

Definition func : Type := A → U → U.

(** Modelled from the spec: the class [EventListener] of
    [xlib.python.EventListener] is not part of the sources at hand.
    Section 4.6 of the specification: registration is append-only and
    every registered listener is invoked, in registration order. *)
Record t : Type := mk { _funcs : list func }.

(** Modelled from the spec: a new listener list is empty. *)
Definition __init__ : t := mk [].

(** The argument of [add]: one function or a list of them. *)
Inductive func_or_list : Type :=
| Func (f : func)
| FuncList (fs : list func).

Definition funcs_of (x : func_or_list) : list func :=
  match x with
  | Func f => [f]
  | FuncList fs => fs
  end.

(** Modelled from the spec: [add] appends to the registered listeners. *)
Definition add (x : func_or_list) (self : t) : t :=
  mk (_funcs self ++ funcs_of x).

(** Modelled from the spec: [call] invokes every registered listener with
    the argument, in registration order. *)
Definition call (a : A) (self : t) (u : U) : U :=
  foldl (λ u f, f a u) u (_funcs self).

End Listener.
Global Arguments t : clear implicits.
Global Arguments func : clear implicits.
Global Arguments func_or_list : clear implicits.
End EventListener.

Module BackendWorker.

(** Modelled from the spec: the base class [lib_csw.Worker] is not part of
    the sources at hand; of its state only the messages sent upstream so far
    are kept, next to the measurer [BackendWorker.__init__] adds. *)
Record t : Type := mk {
  _profile_timing_measurer : AverageMeasurer.t;
  sent_msgs : list (string * Q)
}.

Definition __init__ : t := mk (AverageMeasurer.__init__ 120) [].

(** Modelled from the spec: [send_msg] of [lib_csw.Worker] emits one named
    message with one argument upstream and expects no answer. *)
Definition send_msg (name : string) (arg : Q) : M t unit :=
  modify (λ self, mk (_profile_timing_measurer self)
                     (sent_msgs self ++ [(name, arg)])).

(** A call on [self._profile_timing_measurer]. *)
Definition on_measurer {A} (m : M AverageMeasurer.t A) : M t A := λ self,
  let '(r, measurer) := m (_profile_timing_measurer self) in
  (r, mk measurer (sent_msgs self)).

Definition start_profile_timing (now : Q) : M t unit :=
  on_measurer (modify (AverageMeasurer.start now)).

Definition stop_profile_timing (now : Q) : M t unit :=
  timing ← on_measurer (AverageMeasurer.stop now);
  send_msg "_profile_timing" timing.

(** The two calls of the timing side channel, with the clock reading at
    the call. *)
Inductive timing_call : Type :=
| Start (now : Q)
| Stop (now : Q).

Definition after_call (c : timing_call) (self : t) : t :=
  match c with
  | Start now => (start_profile_timing now self).2
  | Stop now => (stop_profile_timing now self).2
  end.

(** The worker after the given calls, one after the other. *)
Definition after_calls (cs : list timing_call) (self : t) : t :=
  foldl (λ w c, after_call c w) self cs.

(** After the words of the spec, section 4.6: the durations a history of
    calls measures.  [start_profile_timing] and [stop_profile_timing]
    bracket a measurement: a stop that closes the measurement opened at
    [t0] measures the time since [t0]; [open] is the start of the
    measurement open at the beginning of the history, if any. *)
Fixpoint spec_measured_durations (open : option Q) (cs : list timing_call)
  : list Q :=
  match cs with
  | [] => []
  | Start now :: cs => spec_measured_durations (Some now) cs
  | Stop now :: cs =>
      match open with
      | Some t0 => (now - t0)%Q :: spec_measured_durations None cs
      | None => spec_measured_durations None cs
      end
  end.

End BackendWorker.

Module BackendHost.
Section Host.
Context {U : Type}.

(** The methods of the host registered with [call_on_msg]. *)
Inductive msg_func : Type := on_profile_timing_msg.

(** Modelled from the spec: the base class [lib_csw.Host] is not part of
    the sources at hand; of its state only the table [call_on_msg] fills is
    kept, the function to call for each message name, next to the listeners
    [BackendHost.__init__] adds. *)
Record t : Type := mk {
  _profile_timing_evl : EventListener.t Q U;
  on_msg_funcs : gmap string msg_func
}.

(** Modelled from the spec: [call_on_msg] of [lib_csw.Host] registers the
    function to call for a message name. *)
Definition call_on_msg (name : string) (f : msg_func) (self : t) : t :=
  mk (_profile_timing_evl self) (<[name := f]> (on_msg_funcs self)).

Definition __init__ : t :=
  call_on_msg "_profile_timing" on_profile_timing_msg
    (mk EventListener.__init__ ∅).

Definition _on_profile_timing_msg (timing : Q) (self : t) (u : U) : U :=
  EventListener.call timing (_profile_timing_evl self) u.

Definition call_on_profile_timing
    (func_or_list : EventListener.func_or_list Q U) (self : t) : t :=
  mk (EventListener.add func_or_list (_profile_timing_evl self))
     (on_msg_funcs self).

(** Modelled from the spec: a message received from a worker is handed to
    the function registered for its name, if any. *)
Definition receive (msg : string * Q) (self : t) (u : U) : U :=
  match on_msg_funcs self !! msg.1 with
  | Some on_profile_timing_msg => _on_profile_timing_msg msg.2 self u
  | None => u
  end.

(** The host after the given registrations, in order. *)
Definition registered (regs : list (EventListener.func_or_list Q U)) (self : t) : t :=
  foldl (λ h r, call_on_profile_timing r h) self regs.

End Host.
Global Arguments t : clear implicits.
End BackendHost.

(** ** A circular arena as an instance of the weak heap *)

Module Arena.

Local Open Scope N_scope.

(** Modelled from the spec: section 3 of the specification, the value
    [HeapHandle] with its offset, size and epoch. *)
Record HeapHandle : Type := mk_handle {
  offset : N;
  size : N;
  epoch : N
}.

(** Modelled from the spec: section 3 of the specification, the physical
    slot [HeapEntry] with its bytes, size and epoch. *)
Record HeapEntry : Type := mk_entry {
  entry_bytes : bytes;
  entry_size : N;
  entry_epoch : N
}.

(** Modelled from the spec: section 4.1, a fixed-capacity arena with a
    circular write offset; the slots are kept by offset. *)
Record t : Type := mk {
  capacity : N;
  write_offset : N;
  entries : gmap N HeapEntry
}.

(** Modelled from the spec: a new arena holds nothing. *)
Definition __init__ (capacity : N) : t := mk capacity 0 ∅.

(** Do the slot at [o] and the region of [n] bytes at [off] share a byte?
    The slot at [off] itself always counts as reused. *)
Definition reuses (off n o : N) (e : HeapEntry) : bool :=
  (o =? off) || ((o <? off + n) && (off <? o + entry_size e)).

Definition bump (e : HeapEntry) : HeapEntry :=
  mk_entry (entry_bytes e) (entry_size e) (entry_epoch e + 1).

(** Modelled from the spec: section 4.1, [add_data] bump-allocates at the
    circular write offset and wraps to the start when the blob does not
    fit before the end; slots it runs over are overwritten regardless, and
    the epoch of every reused slot is incremented. *)
Definition arena_add_data (d : bytes) (h : t) : HeapHandle * t :=
  let n := N.of_nat (length d) in
  let off := if write_offset h + n <=? capacity h then write_offset h else 0 in
  let bumped := (λ e, if reuses off n e.1 e.2 then bump e.2 else e.2) in
  let old := map_imap (λ o e, Some (bumped (o, e))) (entries h) in
  let ep := match old !! off with
            | Some e => entry_epoch e
            | None => 0
            end in
  (mk_handle off n ep,
   mk (capacity h) (off + n) (<[off := mk_entry d n ep]> old)).

(** Modelled from the spec: section 4.1, [get_data] is absent when no slot
    was written at the handle's offset, and absent when the slot's epoch
    is no longer the handle's (the epoch-checked reading of the
    specification). *)
Definition arena_get_data (ref : HeapHandle) (h : t) : option bytes :=
  match entries h !! offset ref with
  | Some e =>
      if (entry_epoch e =? epoch ref) && (entry_size e =? size ref)
      then Some (entry_bytes e)
      else None
  | None => None
  end.

Global Instance weak_heap : WeakHeap t HeapHandle := {|
  add_data := arena_add_data;
  get_data := arena_get_data
|}.

End Arena.

(** ** Histories of an envelope *)

Module History.
Section History.
Context {FaceMark Float : Type}.
Context {H Ref : Type} `{!WeakHeap H Ref}.
Abbreviation world := (BackendConnectionData.world FaceMark Float H Ref).

(** What a process does with an envelope: the calls of its methods, and
    passing it through a connection ([Transfer]), which leaves the
    receiver with [pickle.loads (pickle.dumps self)]. *)
Inductive call : Type :=
| AssignWeakHeap (weak_heap : heap_id)
| SetFile (name : string) (d : bytes)
| GetFile (name : string)
| SetImage (name : string) (image : np.ndarray)
| GetImage (name : option string)
| AddFaceMark (o : BackendConnectionData.pyobj FaceMark)
| Transfer.

(** The state a call leaves behind, whether it returns or raises. *)
Definition after (c : call) (w : world) : world :=
  match c with
  | AssignWeakHeap l => (BackendConnectionData.assign_weak_heap l w).2
  | SetFile name d => (BackendConnectionData.set_file name d w).2
  | GetFile name => (BackendConnectionData.get_file name w).2
  | SetImage name image => (BackendConnectionData.set_image name image w).2
  | GetImage name => (BackendConnectionData.get_image name w).2
  | AddFaceMark o => (BackendConnectionData.add_face_mark o w).2
  | Transfer => (w.1, pickle.loads (pickle.dumps w.2))
  end.

Definition after_all (cs : list call) (w : world) : world :=
  foldl (λ w c, after c w) w cs.

(** Does the call store a file under [name]?  [set_image] does, through
    [set_file]. *)
Definition sets_file (name : string) (c : call) : bool :=
  match c with
  | SetFile n _ | SetImage n _ => bool_decide (n = name)
  | _ => false
  end.

End History.
Global Arguments call : clear implicits.
End History.

(** ** Sessions: every mutating method of an envelope *)

Module Session.
Section Session.
Context {FaceMark Float : Type}.
Context {H Ref : Type} `{!WeakHeap H Ref}.
Abbreviation world := (BackendConnectionData.world FaceMark Float H Ref).

(** A step of a session: a call of [History], or one of the scalar
    setters. *)
Inductive call : Type :=
| Method (c : History.call FaceMark)
| SetIsFrameReemitted (v : bool)
| SetFrameName (v : string)
| SetFrameCount (v : Z)
| SetFrameNum (v : Z)
| SetFrameFps (v : Float)
| SetFrameTimestamp (v : Float)
| SetMergedFrameName (v : string).

Definition after (c : call) (w : world) : world :=
  match c with
  | Method c => History.after c w
  | SetIsFrameReemitted v => (BackendConnectionData.set_is_frame_reemitted v w).2
  | SetFrameName v => (BackendConnectionData.set_frame_name v w).2
  | SetFrameCount v => (BackendConnectionData.set_frame_count v w).2
  | SetFrameNum v => (BackendConnectionData.set_frame_num v w).2
  | SetFrameFps v => (BackendConnectionData.set_frame_fps v w).2
  | SetFrameTimestamp v => (BackendConnectionData.set_frame_timestamp v w).2
  | SetMergedFrameName v => (BackendConnectionData.set_merged_frame_name v w).2
  end.

Definition after_all (cs : list call) (w : world) : world :=
  foldl (λ w c, after c w) w cs.

(** The value a step gives to each scalar field, if it sets that field. *)
Definition sets_is_frame_reemitted (c : call) : option bool :=
  match c with SetIsFrameReemitted v => Some v | _ => None end.
Definition sets_frame_name (c : call) : option string :=
  match c with SetFrameName v => Some v | _ => None end.
Definition sets_frame_count (c : call) : option Z :=
  match c with SetFrameCount v => Some v | _ => None end.
Definition sets_frame_num (c : call) : option Z :=
  match c with SetFrameNum v => Some v | _ => None end.
Definition sets_frame_fps (c : call) : option Float :=
  match c with SetFrameFps v => Some v | _ => None end.
Definition sets_frame_timestamp (c : call) : option Float :=
  match c with SetFrameTimestamp v => Some v | _ => None end.
Definition sets_merged_frame_name (c : call) : option string :=
  match c with SetMergedFrameName v => Some v | _ => None end.

(** The face mark a step appends, if it is an [add_face_mark] of one. *)
Definition adds_face_mark (c : call) : option FaceMark :=
  match c with
  | Method (History.AddFaceMark o) => BackendConnectionData.isinstance_FaceMark o
  | _ => None
  end.

(** What a step does to the heap binding, if anything: [Some (Some l)] for
    [assign_weak_heap(l)], [Some None] for a transfer. *)
Definition rebinds (c : call) : option (option heap_id) :=
  match c with
  | Method (History.AssignWeakHeap l) => Some (Some l)
  | Method History.Transfer => Some None
  | _ => None
  end.

(** Is the step a [set_file] or a [set_image]? *)
Definition stores (c : call) : bool :=
  match c with
  | Method (History.SetFile _ _) | Method (History.SetImage _ _) => true
  | _ => false
  end.

End Session.
Global Arguments call : clear implicits.
End Session.

(** ** Sequences of calls on a signal *)

Module SignalTrace.

Inductive op : Type := Send | Recv.

Global Instance op_eq_dec : EqDecision op.
Proof. solve_decision. Defined.

Definition after (o : op) (s : BackendSignal.t) : BackendSignal.t :=
  match o with
  | Send => BackendSignal.send s
  | Recv => (BackendSignal.recv s).2
  end.

Definition after_all (ops : list op) (s : BackendSignal.t) : BackendSignal.t :=
  foldl (λ s o, after o s) s ops.

End SignalTrace.

(** ** Concrete data for the examples *)

Module Sample.

Import BackendConnectionData.

(** Landmark records are numbered, floats are rationals, the heap is the
    arena. *)
Abbreviation bcd := (BackendConnectionData.t nat Q Arena.HeapHandle).
Abbreviation world := (BackendConnectionData.world nat Q Arena.t Arena.HeapHandle).

(** Every heap object starts as an empty arena of 16 bytes. *)
Definition heaps : heap_id → Arena.t := λ _, Arena.__init__ 16.

(** A fresh envelope, and the same bound to heap object 0. *)
Definition fresh : bcd := __init__ 1.
Definition bound : world := (assign_weak_heap 0%nat (heaps, fresh)).2.

(** A 2x2 image of one byte per pixel. *)
Definition image : np.ndarray :=
  np.mk_ndarray [2; 2]%N np.uint8 ["a"; "b"; "c"; "d"]%byte.

(** The sender's world after [set_file("blob", b"xy")], and what a
    receiver holds after reading the envelope from a connection, before it
    binds its heap. *)
Definition with_blob : world := (set_file "blob" ["x"; "y"]%byte bound).2.
Definition received : world :=
  (with_blob.1, pickle.loads (pickle.dumps with_blob.2)).

(** The receiver's connection after one [write] of that envelope by the
    sender and one [read]. *)
Definition read_once : BackendConnection.t nat Q Arena.HeapHandle :=
  (BackendConnection.read 0%Q
     (BackendConnection.write with_blob.2 (BackendConnection.__init__ false))).2.

(** The world after [set_file("empty", b"")]. *)
Definition with_empty : world := (set_file "empty" [] bound).2.

(** A history that never stores a file under ["other"]. *)
Definition history : list (History.call nat) :=
  [History.AssignWeakHeap 0%nat; History.SetFile "empty" []; History.Transfer;
   History.GetImage None].

(** The world after [set_image("raw", image)], and then after
    [set_file("raw", b"vwxyz")]. *)
Definition with_image : world := (set_image "raw" image bound).2.
Definition five : bytes := ["v"; "w"; "x"; "y"; "z"]%byte.
Definition overwritten : world := (set_file "raw" five with_image).2.

(** Two blobs of ten bytes stored one after the other in the arena of 16
    bytes: the second wraps around and overwrites the first. *)
Definition ten : bytes := ["0"; "1"; "2"; "3"; "4"; "5"; "6"; "7"; "8"; "9"]%byte.
Definition wrapped : world := (set_file "b" ten (set_file "a" ten bound).2).2.

(** A history of timing calls: a measurement of 2, a stop that closes
    nothing, and a measurement left open at 6. *)
Definition timing_calls : list BackendWorker.timing_call :=
  [BackendWorker.Start 0; BackendWorker.Stop 2; BackendWorker.Stop 5;
   BackendWorker.Start 6]%Q.

(** A session that stores nothing. *)
Definition quiet : list (Session.call nat Q) :=
  [Session.SetFrameNum 0; Session.Method History.Transfer;
   Session.Method (History.GetImage None)].

(** The array [np.ndarray] makes of [five] under the shape of [image]. *)
Definition four_of_five : np.ndarray :=
  np.mk_ndarray [2; 2]%N np.uint8 ["v"; "w"; "x"; "y"]%byte.

End Sample.

(** * Properties *)

(** ** The connection *)

Section ConnectionFacts.
Context {FaceMark Float Ref : Type}.
Abbreviation conn := (BackendConnection.t FaceMark Float Ref).
Abbreviation envelope := (BackendConnectionData.t FaceMark Float Ref).

Import MPSPSCMRRingData.

Lemma is_full_read_true (bs : Z) (c : conn) :
  BackendConnection.is_full_read bs c = true
  ↔ read_id (BackendConnection._rd c) >= write_id (BackendConnection._rd c) - bs.
Proof.
  unfold BackendConnection.is_full_read, get_read_id, get_write_id.
  rewrite Z.geb_le. lia.
Qed.

(** C1: [is_full_read(buffer_size)] is true exactly when the reader's
    [read_id] is at least [write_id - buffer_size], and false otherwise; in
    particular with [buffer_size = 0] (the default: fully caught up) and
    with [buffer_size] the capacity of the table. *)
Theorem is_full_read_iff (bs : Z) (c : conn) :
  let rd := BackendConnection._rd c in
  (BackendConnection.is_full_read bs c = true
     ↔ read_id rd >= write_id rd - bs)
  ∧ (BackendConnection.is_full_read bs c = false
     ↔ ¬ read_id rd >= write_id rd - bs)
  ∧ (BackendConnection.is_full_read_default c = true
     ↔ read_id rd >= write_id rd)
  ∧ (BackendConnection.is_full_read (table_size rd) c = true
     ↔ read_id rd >= write_id rd - table_size rd).
Proof.
  intros rd. repeat split.
  all: try (intros Hb; apply is_full_read_true in Hb; subst rd; lia).
  all: try (intros Hz; apply is_full_read_true; subst rd; lia).
  - intros Hb Hz. apply is_full_read_true in Hz. congruence.
  - intros Hn. destruct (BackendConnection.is_full_read bs c) eqn:E; [|done].
    apply is_full_read_true in E. contradiction.
Qed.

(** C2: the state that [write] serializes never holds the bound heap: its
    [_weak_heap] entry is [None] whatever the envelope's was, and every
    other entry, the name-to-handle mapping included, is the envelope's
    own value.  That state is what the ring receives and what a reader
    gets back under the record's sequence number. *)
Theorem write_serializes_without_heap (o : envelope) (c : conn) :
  let state := BackendConnectionData.__getstate__ o in
  BackendConnection.write o c
    = BackendConnection.mk (write (pickle.Pickled state) (BackendConnection._rd c))
  ∧ BackendConnection.get_by_id (BackendConnection.get_write_id c)
      (BackendConnection.write o c) = Some state
  ∧ BackendConnectionData._weak_heap state = None
  ∧ BackendConnectionData._weak_heap_refs state
      = BackendConnectionData._weak_heap_refs o
  ∧ BackendConnectionData._weak_heap_image_infos state
      = BackendConnectionData._weak_heap_image_infos o
  ∧ BackendConnectionData._uid state = BackendConnectionData._uid o
  ∧ BackendConnectionData._is_frame_reemitted state
      = BackendConnectionData._is_frame_reemitted o
  ∧ BackendConnectionData._frame_name state = BackendConnectionData._frame_name o
  ∧ BackendConnectionData._frame_count state = BackendConnectionData._frame_count o
  ∧ BackendConnectionData._frame_num state = BackendConnectionData._frame_num o
  ∧ BackendConnectionData._frame_fps state = BackendConnectionData._frame_fps o
  ∧ BackendConnectionData._frame_timestamp state
      = BackendConnectionData._frame_timestamp o
  ∧ BackendConnectionData._merged_frame_name state
      = BackendConnectionData._merged_frame_name o
  ∧ BackendConnectionData._face_mark_list state
      = BackendConnectionData._face_mark_list o.
Proof.
  intros state. split; [reflexivity|]. split; [|by repeat split].
  unfold BackendConnection.get_by_id, BackendConnection.write,
    BackendConnection.get_write_id, get_by_id, write, get_write_id.
  cbn [BackendConnection._rd table table_size write_id].
  rewrite lookup_insert_eq. by rewrite decide_True.
Qed.

Lemma config_after (k : BackendConnection.call FaceMark Float Ref) (c : conn) :
  BackendConnection.config (BackendConnection.after k c)
  = BackendConnection.config c.
Proof.
  destruct k; try reflexivity.
  cbn [BackendConnection.after]. unfold BackendConnection.read, read.
  by destruct (wait_for_read timeout (BackendConnection._rd c)).
Qed.

(** C8: a connection is built with a table of 8192 slots, a heap of 8 MB
    and the [multi_producer] flag it is given ([False] when omitted), and
    no sequence of calls on the connection changes any of the three. *)
Theorem connection_config_fixed
    (multi_producer : bool) (ks : list (BackendConnection.call FaceMark Float Ref)) :
  BackendConnection.config (BackendConnection.__init__ multi_producer : conn)
    = (8192, 8, multi_producer)
  ∧ BackendConnection.config (BackendConnection.__init__default : conn)
    = (8192, 8, false)
  ∧ BackendConnection.config
      (BackendConnection.after_all ks (BackendConnection.__init__ multi_producer))
    = (8192, 8, multi_producer).
Proof.
  split; [reflexivity|]. split; [reflexivity|].
  unfold BackendConnection.after_all.
  induction ks as [|k ks IH] using rev_ind; [reflexivity|].
  by rewrite foldl_snoc, config_after.
Qed.

(** Every record in the table of a connection decodes to an envelope with
    no heap bound. *)
Lemma records_unbound (multi_producer : bool)
    (ks : list (BackendConnection.call FaceMark Float Ref)) slot i b :
  table (BackendConnection._rd
           (BackendConnection.after_all ks (BackendConnection.__init__ multi_producer)))
    !! slot = Some (i, b) →
  BackendConnectionData._weak_heap (pickle.loads b) = None.
Proof.
  unfold BackendConnection.after_all. revert slot i b.
  induction ks as [|k ks IH] using rev_ind; intros slot i b; [done|].
  rewrite foldl_snoc.
  set (c := foldl _ _ ks) in *.
  destruct k as [o|timeout| |id|timeout|bs]; simpl; try apply IH.
  - rewrite lookup_insert. case_decide; [|apply IH].
    by intros [= <- <-].
  - unfold BackendConnection.read, read.
    destruct (wait_for_read timeout (BackendConnection._rd c)); apply IH.
Qed.

(** What a process reads from a connection has no heap bound. *)
Lemma read_unbound (multi_producer : bool)
    (ks : list (BackendConnection.call FaceMark Float Ref))
    (timeout : Float) (self : envelope) (c' : conn) :
  BackendConnection.read timeout
    (BackendConnection.after_all ks (BackendConnection.__init__ multi_producer))
  = (Some self, c') →
  BackendConnectionData._weak_heap self = None.
Proof.
  unfold BackendConnection.read, read, get_by_id.
  set (c := BackendConnection.after_all ks _).
  destruct (wait_for_read timeout (BackendConnection._rd c)); [|done].
  destruct (table (BackendConnection._rd c) !! _) as [[i b]|] eqn:E; [|done].
  case_decide; [|done]. intros [= <- _].
  exact (records_unbound multi_producer ks _ i b E).
Qed.

End ConnectionFacts.

(** ** The envelope *)

Section EnvelopeFacts.
Context {FaceMark Float : Type}.
Context {H Ref : Type} `{!WeakHeap H Ref}.
Import BackendConnectionData.
Abbreviation bcd := (BackendConnectionData.t FaceMark Float Ref).
Abbreviation world := (BackendConnectionData.world FaceMark Float H Ref).
Implicit Types (hs : heap_id → H) (self : bcd) (w : world) (name : string).

(** Unfold the method monad down to pairs of outcome and state. *)
Ltac run :=
  unfold set_image, set_file, get_image, get_file, weak_heap_attr,
    call_add_data, call_get_data, assign_weak_heap, add_face_mark,
    get_face_mark_list, self_, gets, modify, raise, pure_call,
    mbind, M_bind, mret, M_ret;
  simpl.

Lemma get_file_unset hs self name :
  _weak_heap_refs self !! name = None →
  get_file name (hs, self) = (Ret None, (hs, self)).
Proof. intros E. run. by rewrite E. Qed.

Lemma get_file_unbound hs self name ref :
  _weak_heap_refs self !! name = Some ref →
  _weak_heap self = None →
  get_file name (hs, self)
  = (Raise (none_has_no_attribute "get_data"), (hs, self)).
Proof. intros E Eh. run. rewrite E. simpl. by rewrite Eh. Qed.

Lemma get_file_bound hs self name ref l :
  _weak_heap_refs self !! name = Some ref →
  _weak_heap self = Some l →
  get_file name (hs, self) = (Ret (get_data ref (hs l)), (hs, self)).
Proof. intros E Eh. run. rewrite E. simpl. by rewrite Eh. Qed.

Lemma get_file_state name w : (get_file name w).2 = w.
Proof.
  destruct w as [hs self].
  destruct (_weak_heap_refs self !! name) as [ref|] eqn:E;
    [|by rewrite get_file_unset].
  destruct (_weak_heap self) as [l|] eqn:Eh.
  - by rewrite (get_file_bound _ _ _ ref l).
  - by rewrite (get_file_unbound _ _ _ ref).
Qed.

Lemma set_file_bound hs self name d l :
  _weak_heap self = Some l →
  set_file name d (hs, self)
  = (Ret tt,
     (<[l := (add_data d (hs l)).2]> hs,
      with_weak_heap_refs
        (<[name := (add_data d (hs l)).1]> (_weak_heap_refs self)) self)).
Proof. intros Eh. run. rewrite Eh. by destruct (add_data d (hs l)). Qed.

Lemma set_file_unbound hs self name d :
  _weak_heap self = None →
  set_file name d (hs, self)
  = (Raise (none_has_no_attribute "add_data"), (hs, self)).
Proof. intros Eh. run. by rewrite Eh. Qed.

Lemma set_image_bound hs self name image l :
  _weak_heap self = Some l →
  set_image name image (hs, self)
  = (Ret tt,
     (<[l := (add_data (np.data image) (hs l)).2]> hs,
      with_weak_heap_image_infos
        (<[name := (np.shape image, np.dtype_of image)]>
           (_weak_heap_image_infos self))
        (with_weak_heap_refs
           (<[name := (add_data (np.data image) (hs l)).1]>
              (_weak_heap_refs self)) self))).
Proof.
  intros Eh. unfold set_image. unfold mbind at 1, M_bind at 1.
  rewrite (set_file_bound _ _ _ _ l Eh). reflexivity.
Qed.

Lemma set_image_unbound hs self name image :
  _weak_heap self = None →
  set_image name image (hs, self)
  = (Raise (none_has_no_attribute "add_data"), (hs, self)).
Proof.
  intros Eh. unfold set_image. unfold mbind at 1, M_bind at 1.
  by rewrite (set_file_unbound _ _ _ _ Eh).
Qed.

(** [get_image] on a name in terms of the two dictionaries. *)
Lemma get_image_some hs self name :
  get_image (Some name) (hs, self)
  = match get_file name (hs, self) with
    | (Ret (Some buffer), _) =>
        match _weak_heap_image_infos self !! name with
        | Some (shape, dtype) =>
            (match np.ndarray_of_buffer shape dtype buffer with
             | Ret a => Ret (Some a)
             | Raise e => Raise e
             end, (hs, self))
        | None => (Ret None, (hs, self))
        end
    | (Ret None, _) => (Ret None, (hs, self))
    | (Raise e, _) => (Raise e, (hs, self))
    end.
Proof.
  pose proof (get_file_state name (hs, self)) as Hst.
  unfold get_image. unfold mbind at 1, M_bind at 1.
  unfold self_ at 1, gets at 1. cbn [snd].
  unfold mbind at 1, M_bind at 1.
  destruct (get_file name (hs, self)) as [[[buffer|]|e] w']; cbn in Hst; subst w'.
  - destruct (_weak_heap_image_infos self !! name) as [[shape dtype]|]; [|done].
    unfold mbind, M_bind, pure_call, mret, M_ret.
    by destruct (np.ndarray_of_buffer shape dtype buffer).
  - by destruct (_weak_heap_image_infos self !! name) as [[shape dtype]|].
  - done.
Qed.

Lemma get_image_state (oname : option string) w : (get_image oname w).2 = w.
Proof.
  destruct w as [hs self]. destruct oname as [name|]; [|done].
  rewrite get_image_some.
  destruct (get_file name (hs, self)) as [[[buffer|]|e] w']; [|done..].
  destruct (_weak_heap_image_infos self !! name) as [[shape dtype]|]; done.
Qed.

Lemma ndarray_of_own_buffer (image : np.ndarray) :
  np.well_formed image →
  np.ndarray_of_buffer (np.shape image) (np.dtype_of image) (np.data image)
  = Ret image.
Proof.
  unfold np.well_formed, np.ndarray_of_buffer. intros <-.
  rewrite N.ltb_irrefl, Nat2N.id, firstn_all. by destruct image.
Qed.

(** What [set_file] and [set_image] leave alone. *)
Lemma set_file_frame w name d :
  _weak_heap_image_infos (set_file name d w).2.2 = _weak_heap_image_infos w.2
  ∧ ∀ name', name' ≠ name →
      _weak_heap_refs (set_file name d w).2.2 !! name' = _weak_heap_refs w.2 !! name'.
Proof.
  destruct w as [hs self]. destruct (_weak_heap self) as [l|] eqn:Eh.
  - rewrite (set_file_bound _ _ _ _ l Eh). split; [done|].
    intros name' Hne. simpl. by rewrite lookup_insert_ne.
  - by rewrite (set_file_unbound _ _ _ _ Eh).
Qed.

Lemma set_image_frame w name image name' :
  name' ≠ name →
  _weak_heap_refs (set_image name image w).2.2 !! name' = _weak_heap_refs w.2 !! name'
  ∧ _weak_heap_image_infos (set_image name image w).2.2 !! name'
    = _weak_heap_image_infos w.2 !! name'.
Proof.
  intros Hne. destruct w as [hs self]. destruct (_weak_heap self) as [l|] eqn:Eh.
  - rewrite (set_image_bound _ _ _ _ l Eh). simpl.
    by rewrite !lookup_insert_ne.
  - by rewrite (set_image_unbound _ _ _ _ Eh).
Qed.

(** A call that stores no file under [name] leaves the handle of [name]
    as it was. *)
Lemma refs_after (c : History.call FaceMark) w name :
  History.sets_file name c = false →
  _weak_heap_refs (History.after c w).2 !! name = _weak_heap_refs w.2 !! name.
Proof.
  intros Hc. destruct c as [l|n d|n|n image|n|o|]; simpl in *.
  - done.
  - apply set_file_frame. intros ->. by rewrite bool_decide_eq_true_2 in Hc.
  - by rewrite get_file_state.
  - apply set_image_frame. intros ->. by rewrite bool_decide_eq_true_2 in Hc.
  - by rewrite get_image_state.
  - unfold add_face_mark. by destruct (isinstance_FaceMark o).
  - done.
Qed.

Lemma refs_after_all (cs : list (History.call FaceMark)) w name :
  forallb (λ c, negb (History.sets_file name c)) cs = true →
  _weak_heap_refs (History.after_all cs w).2 !! name = _weak_heap_refs w.2 !! name.
Proof.
  unfold History.after_all. revert w.
  induction cs as [|c cs IH]; intros w Hcs; [done|].
  simpl in Hcs. apply andb_true_iff in Hcs as [Hc Hcs].
  simpl. rewrite IH by done. apply refs_after. by apply negb_true_iff.
Qed.

(** C3: [add_face_mark] on a value that is not a [FaceMark] raises
    [ValueError] at once and leaves the envelope, its list of face marks
    included, as it was; on a [FaceMark] it appends the value at the end of
    the list and changes nothing else. *)
Theorem add_face_mark_checks_instance (bad good : pyobj FaceMark) (fm : FaceMark) w :
  (isinstance_FaceMark bad = None →
     add_face_mark bad w
     = (Raise (ValueError "face_mark must be an instance of FaceMark"), w)
     ∧ (get_face_mark_list (add_face_mark bad w).2).1
       = (get_face_mark_list w).1)
  ∧ (isinstance_FaceMark good = Some fm →
     add_face_mark good w
     = (Ret tt, (w.1, with_face_mark_list (_face_mark_list w.2 ++ [fm]) w.2))
     ∧ (get_face_mark_list (add_face_mark good w).2).1
       = Ret (_face_mark_list w.2 ++ [fm])).
Proof.
  split; intros E; unfold add_face_mark; by rewrite E.
Qed.

(** C4: round trip.  On an envelope with a bound heap, [set_image(name,
    image)] succeeds and records the handle the heap issued for the pixel
    bytes; as long as the heap still resolves that handle to those bytes
    (the slot has not been overwritten), [get_image(name)] returns the very
    image: same bytes, same shape, same element type. *)
Theorem set_image_get_image_round_trip hs self l name (image : np.ndarray) :
  _weak_heap self = Some l →
  np.well_formed image →
  let stored := set_image name image (hs, self) in
  let ref := (add_data (np.data image) (hs l)).1 in
  stored.1 = Ret tt
  ∧ _weak_heap_refs stored.2.2 !! name = Some ref
  ∧ stored.2.1 l = (add_data (np.data image) (hs l)).2
  ∧ ∀ hs', get_data ref (hs' l) = Some (np.data image) →
      get_image (Some name) (hs', stored.2.2)
      = (Ret (Some image), (hs', stored.2.2)).
Proof.
  intros Eh Hwf stored ref. subst stored.
  rewrite (set_image_bound _ _ _ _ l Eh).
  split; [done|]. split; [by simpl; rewrite lookup_insert_eq|].
  split; [by simpl; rewrite fn_lookup_insert|].
  intros hs' Hget. rewrite get_image_some.
  erewrite get_file_bound; [|by simpl; rewrite lookup_insert_eq|by simpl].
  fold ref. rewrite Hget. simpl. rewrite lookup_insert_eq.
  by rewrite ndarray_of_own_buffer.
Qed.

Lemma unbound_fails hs self name ref :
  _weak_heap self = None →
  _weak_heap_refs self !! name = Some ref →
  get_file name (hs, self)
  = (Raise (none_has_no_attribute "get_data"), (hs, self))
  ∧ get_image (Some name) (hs, self)
    = (Raise (none_has_no_attribute "get_data"), (hs, self)).
Proof.
  intros Eh E.
  assert (get_file name (hs, self)
          = (Raise (none_has_no_attribute "get_data"), (hs, self))) as Hf
    by (by apply (get_file_unbound _ _ _ ref)).
  split; [done|]. by rewrite get_image_some, Hf.
Qed.

(** C5: an envelope that came out of deserialization, be it
    [pickle.loads] of a pickled envelope or what [read] returns on a
    connection, has no heap bound; for a name whose handle it carries,
    [get_file] and [get_image] both raise the [AttributeError] of a call on
    [None], whatever heaps the process holds, and so never hand out
    bytes. *)
Theorem unbound_envelope_fails
    hs (o : bcd) (multi_producer : bool)
    (ks : list (BackendConnection.call FaceMark Float Ref))
    (timeout : Float) (got : bcd) c' name ref :
  (_weak_heap_refs o !! name = Some ref →
   let self := pickle.loads (pickle.dumps o) in
   _weak_heap self = None
   ∧ get_file name (hs, self)
     = (Raise (none_has_no_attribute "get_data"), (hs, self))
   ∧ get_image (Some name) (hs, self)
     = (Raise (none_has_no_attribute "get_data"), (hs, self))
   ∧ (∀ b, (get_file name (hs, self)).1 ≠ Ret b)
   ∧ (∀ a, (get_image (Some name) (hs, self)).1 ≠ Ret a))
  ∧ (BackendConnection.read timeout
       (BackendConnection.after_all ks (BackendConnection.__init__ multi_producer))
     = (Some got, c') →
     _weak_heap_refs got !! name = Some ref →
     _weak_heap got = None
     ∧ get_file name (hs, got)
       = (Raise (none_has_no_attribute "get_data"), (hs, got))
     ∧ get_image (Some name) (hs, got)
       = (Raise (none_has_no_attribute "get_data"), (hs, got))
     ∧ (∀ b, (get_file name (hs, got)).1 ≠ Ret b)
     ∧ (∀ a, (get_image (Some name) (hs, got)).1 ≠ Ret a)).
Proof.
  split.
  - intros E self.
    destruct (unbound_fails hs self name ref eq_refl E) as [Hf Hi].
    rewrite Hf, Hi. by repeat split.
  - intros Hread E.
    pose proof (read_unbound multi_producer ks timeout got c' Hread) as Eh.
    destruct (unbound_fails hs got name ref Eh E) as [Hf Hi].
    rewrite Hf, Hi. by repeat split.
Qed.

(** C6, as the code has it: [get_file(name)] returns [None] when no call
    ever stored a file under [name], in any state of the heap binding;
    [get_image(None)] returns [None]; [get_image(name)] returns [None] when
    no image metadata is recorded for [name], provided a heap is bound or no
    handle is recorded for [name] either.  [None] is not what an empty blob
    gives: a handle the heap resolves to no bytes yields [b""]. *)
Theorem absent_results
    (uid : Z) (cs : list (History.call FaceMark)) hs self name name_e ref l :
  (forallb (λ c, negb (History.sets_file name c)) cs = true →
     let w := History.after_all cs ((hs, __init__ uid) : world) in
     get_file name w = (Ret None, w))
  ∧ (_weak_heap_refs self !! name = None →
     get_file name (hs, self) = (Ret None, (hs, self)))
  ∧ get_image None (hs, self) = (Ret None, (hs, self))
  ∧ (_weak_heap_image_infos self !! name = None →
     is_Some (_weak_heap self) ∨ _weak_heap_refs self !! name = None →
     get_image (Some name) (hs, self) = (Ret None, (hs, self)))
  ∧ (_weak_heap_refs self !! name_e = Some ref →
     _weak_heap self = Some l →
     get_data ref (hs l) = Some [] →
     get_file name_e (hs, self) = (Ret (Some []), (hs, self))
     ∧ Ret (Some []) ≠ (Ret None : result (option bytes))).
Proof.
  split; [|split; [|split; [|split]]].
  - intros Hcs w.
    pose proof (refs_after_all cs (hs, __init__ uid) name Hcs) as E.
    fold w in E. destruct w as [hs' self']. by apply get_file_unset.
  - apply get_file_unset.
  - done.
  - intros Ei Hb. rewrite get_image_some, Ei.
    destruct (_weak_heap_refs self !! name) as [r|] eqn:E.
    + destruct Hb as [[l' Eh]|]; [|done].
      rewrite (get_file_bound _ _ _ r l' E Eh). by destruct (get_data r (hs l')).
    + by rewrite get_file_unset.
  - intros E Eh Hget. rewrite (get_file_bound _ _ _ ref l E Eh), Hget. by split.
Qed.

(** C10: one name space.  [set_image(name, image)] stores the pixel bytes
    exactly as [set_file(name, image.data)] does; a later [set_file(name,
    d)] puts the new handle under [name] and leaves the image metadata as it
    was, shape and element type of [image] still under [name]; as long as
    the heap resolves the new handle to [d], [get_image(name)] is what
    [np.ndarray] makes of [d] under that stale shape and element type, never
    [None]; and neither call touches the entries of another name. *)
Theorem set_file_shares_names_with_set_image
    hs self l name (image : np.ndarray) (d : bytes) name' :
  _weak_heap self = Some l →
  name' ≠ name →
  let w1 := (set_image name image (hs, self)).2 in
  let w2 := (set_file name d w1).2 in
  let ref' := (add_data d (w1.1 l)).1 in
  (w1.1 = (set_file name (np.data image) (hs, self)).2.1
   ∧ _weak_heap_refs w1.2
     = _weak_heap_refs (set_file name (np.data image) (hs, self)).2.2)
  ∧ (_weak_heap_refs w2.2 !! name = Some ref'
     ∧ _weak_heap_image_infos w2.2 = _weak_heap_image_infos w1.2
     ∧ _weak_heap_image_infos w2.2 !! name
       = Some (np.shape image, np.dtype_of image))
  ∧ (∀ hs', get_data ref' (hs' l) = Some d →
       get_image (Some name) (hs', w2.2)
       = (match np.ndarray_of_buffer (np.shape image) (np.dtype_of image) d with
          | Ret a => Ret (Some a)
          | Raise e => Raise e
          end, (hs', w2.2))
       ∧ (get_image (Some name) (hs', w2.2)).1 ≠ Ret None)
  ∧ (_weak_heap_refs w1.2 !! name' = _weak_heap_refs self !! name'
     ∧ _weak_heap_image_infos w1.2 !! name' = _weak_heap_image_infos self !! name'
     ∧ _weak_heap_refs w2.2 !! name' = _weak_heap_refs w1.2 !! name'
     ∧ _weak_heap_image_infos w2.2 !! name' = _weak_heap_image_infos w1.2 !! name').
Proof.
  intros Eh Hne w1 w2 ref'.
  assert (_weak_heap w1.2 = Some l) as Eh1
    by (subst w1; by rewrite (set_image_bound _ _ _ _ l Eh)).
  assert (_weak_heap_image_infos w1.2 !! name
          = Some (np.shape image, np.dtype_of image)) as Ei1.
  { subst w1. rewrite (set_image_bound _ _ _ _ l Eh). simpl.
    by rewrite lookup_insert_eq. }
  assert (w2 = (<[l := (add_data d (w1.1 l)).2]> w1.1,
                with_weak_heap_refs (<[name := ref']> (_weak_heap_refs w1.2)) w1.2))
    as E2.
  { subst w2. destruct w1 as [hs1 self1]. by rewrite (set_file_bound _ _ _ _ l Eh1). }
  split; [|split; [|split]].
  - subst w1. rewrite (set_image_bound _ _ _ _ l Eh).
    by rewrite (set_file_bound _ _ _ _ l Eh).
  - rewrite E2. simpl. by rewrite lookup_insert_eq.
  - intros hs' Hget.
    assert (get_image (Some name) (hs', w2.2)
            = (match np.ndarray_of_buffer (np.shape image) (np.dtype_of image) d with
               | Ret a => Ret (Some a)
               | Raise e => Raise e
               end, (hs', w2.2))) as Hg.
    { rewrite get_image_some.
      erewrite (get_file_bound _ _ _ ref' l);
        [|by rewrite E2; simpl; rewrite lookup_insert_eq|by rewrite E2].
      rewrite Hget. rewrite E2 at 1. simpl. by rewrite Ei1. }
    split; [done|]. rewrite Hg. simpl.
    by destruct (np.ndarray_of_buffer (np.shape image) (np.dtype_of image) d).
  - destruct (set_image_frame (hs, self) name image name' Hne) as [Hr Hi].
    destruct (set_file_frame w1 name d) as [Hi2 Hr2].
    fold w1 in Hr, Hi. fold w2 in Hi2, Hr2.
    rewrite Hr, Hi, Hi2, (Hr2 name' Hne). done.
Qed.

End EnvelopeFacts.

(** ** The signal *)

Section SignalFacts.
Import BackendSignal.

Lemma send_n_set (n : nat) (s : t) : (1 ≤ n)%nat → send_n n s = {| _ev := true |}.
Proof. destruct n as [|n]; [lia|]. reflexivity. Qed.

(** C7: after [n >= 1] calls of [send] in a row, the first [recv] returns
    true and the next one, with no [send] in between, returns false.
    Sending twice is sending once, and [recv] returns whether the flag was
    set and leaves it cleared. *)
Theorem sends_collapse_to_one_edge (n : nat) (s : t) :
  (1 ≤ n)%nat →
  let first := recv (send_n n s) in
  let second := recv first.2 in
  first.1 = true
  ∧ second.1 = false
  ∧ send (send s) = send s
  ∧ (recv s).1 = _ev s
  ∧ _ev (recv s).2 = false.
Proof.
  intros Hn. simpl. rewrite (send_n_set n s Hn).
  repeat split; by destruct s as [[]].
Qed.

End SignalFacts.

(** ** The timing side channel *)

Section TimingFacts.
Context {U : Type}.
Import AverageMeasurer.

Lemma last_n_snoc {A} (n : nat) (l : list A) (x : A) :
  last_n n (last_n n l ++ [x]) = last_n n (l ++ [x]).
Proof.
  unfold last_n. rewrite !length_app, length_drop. simpl.
  destruct (decide (length l ≤ n)%nat) as [Hle|Hgt].
  - replace (length l - n)%nat with 0%nat by lia. simpl.
    by rewrite Nat.sub_0_r.
  - replace (length l - (length l - n) + 1 - n)%nat with 1%nat by lia.
    replace (length l + 1 - n)%nat with ((length l - n) + 1)%nat by lia.
    rewrite <- drop_drop. f_equal. rewrite drop_app_le by lia. done.
Qed.

(** [start_profile_timing] opens a measurement and sends nothing. *)
Lemma start_sends_nothing (now : Q) (w : BackendWorker.t) :
  let m := BackendWorker._profile_timing_measurer w in
  BackendWorker.start_profile_timing now w
  = (Ret tt,
     BackendWorker.mk (mk (samples m) (Some now) (_measures m))
       (BackendWorker.sent_msgs w)).
Proof. by destruct w as [[n ts ms] sent]. Qed.

(** [stop_profile_timing] on any worker: it returns, and exactly one more
    message is sent, named [_profile_timing], with the average of the
    durations the measurer keeps after the call. *)
Lemma stop_sends_one (now : Q) (w : BackendWorker.t) :
  let stopped := BackendWorker.stop_profile_timing now w in
  stopped.1 = Ret tt
  ∧ BackendWorker.sent_msgs stopped.2
    = BackendWorker.sent_msgs w
      ++ [("_profile_timing",
           average (_measures (BackendWorker._profile_timing_measurer stopped.2)))].
Proof. by destruct w as [[n [t0|] ms] sent]. Qed.

(** The measurer of a worker keeps the last [samples] of the durations
    its history measures, and the worker has sent one message per stop. *)
Lemma worker_after_calls (cs : list BackendWorker.timing_call)
    (w : BackendWorker.t) (l : list Q) :
  let m := BackendWorker._profile_timing_measurer w in
  let w' := BackendWorker.after_calls cs w in
  let m' := BackendWorker._profile_timing_measurer w' in
  _measures m = last_n (samples m) l →
  samples m' = samples m
  ∧ _measures m'
    = last_n (samples m) (l ++ BackendWorker.spec_measured_durations (_ts m) cs)
  ∧ (BackendWorker.sent_msgs w').*1
    = (BackendWorker.sent_msgs w).*1
      ++ ((λ _, "_profile_timing")
            <$> omap (λ c, match c with
                           | BackendWorker.Stop now => Some now
                           | BackendWorker.Start _ => None
                           end) cs).
Proof.
  unfold BackendWorker.after_calls. revert w l.
  induction cs as [|c cs IH]; intros [[n ts ms] sent] l; simpl; intros E.
  - by rewrite !app_nil_r.
  - destruct c as [now|now].
    + apply (IH (BackendWorker.mk (mk n (Some now) ms) sent) l E).
    + destruct ts as [t0|]; simpl.
      * destruct (IH (BackendWorker.mk
                        (mk n None (last_n n (ms ++ [(now - t0)%Q])))
                        (sent ++ [("_profile_timing",
                                   average (last_n n (ms ++ [(now - t0)%Q])))]))
                     (l ++ [(now - t0)%Q])) as (Hs & Hm & Hsent).
        { simpl. by rewrite E, last_n_snoc. }
        simpl in *. split; [done|]. split.
        -- by rewrite Hm, <- app_assoc.
        -- by rewrite Hsent, fmap_app, <- app_assoc.
      * destruct (IH (BackendWorker.mk (mk n None ms)
                        (sent ++ [("_profile_timing", average ms)])) l)
          as (Hs & Hm & Hsent); [done|].
        simpl in *. split; [done|]. split; [done|].
        by rewrite Hsent, fmap_app, <- app_assoc.
Qed.

Lemma registered_funcs (regs : list (EventListener.func_or_list Q U))
    (h : BackendHost.t U) :
  BackendHost.registered regs h
  = BackendHost.mk
      (EventListener.mk (EventListener._funcs (BackendHost._profile_timing_evl h)
                         ++ concat (EventListener.funcs_of <$> regs)))
      (BackendHost.on_msg_funcs h).
Proof.
  unfold BackendHost.registered. revert h.
  induction regs as [|r regs IH]; intros [[fs] tbl]; simpl.
  - by rewrite app_nil_r.
  - rewrite IH. simpl. by rewrite <- app_assoc.
Qed.

(** C9: on every worker, that is after any history of
    [start_profile_timing] and [stop_profile_timing] calls in any order,
    each call of [stop_profile_timing] returns and sends exactly one more
    message, named [_profile_timing]; a start sends none, so the messages
    sent are one per stop.  When the history has measured a duration, the
    message carries the sum of the last (at most) 120 measured durations
    divided by their number.  A host that receives a message of that name
    calls every listener registered with [call_on_profile_timing], singly
    or as a list, in registration order, with the value the message
    carries. *)
Theorem profile_timing_reaches_listeners
    (cs : list BackendWorker.timing_call) (now timing : Q)
    (regs : list (EventListener.func_or_list Q U)) (u : U) :
  let w := BackendWorker.after_calls cs BackendWorker.__init__ in
  let stopped := BackendWorker.stop_profile_timing now w in
  let measured :=
    BackendWorker.spec_measured_durations None (cs ++ [BackendWorker.Stop now]) in
  let recent := drop (length measured - 120) measured in
  let listeners :=
    concat ((λ r, match r with
                  | EventListener.Func f => [f]
                  | EventListener.FuncList fs => fs
                  end) <$> regs) in
  let host := BackendHost.registered regs BackendHost.__init__ in
  stopped.1 = Ret tt
  ∧ (BackendWorker.sent_msgs stopped.2).*1
    = (BackendWorker.sent_msgs w).*1 ++ ["_profile_timing"]
  ∧ (recent ≠ [] →
     BackendWorker.sent_msgs stopped.2
     = BackendWorker.sent_msgs w
       ++ [("_profile_timing",
            (foldr Qplus 0 recent / inject_Z (Z.of_nat (length recent)))%Q)])
  ∧ BackendWorker.sent_msgs (BackendWorker.start_profile_timing now w).2
    = BackendWorker.sent_msgs w
  ∧ (BackendWorker.sent_msgs w).*1
    = (λ _, "_profile_timing")
        <$> omap (λ c, match c with
                       | BackendWorker.Stop t => Some t
                       | BackendWorker.Start _ => None
                       end) cs
  ∧ BackendHost.receive ("_profile_timing", timing) host u
    = foldl (λ u f, f timing u) u listeners.
Proof.
  intros w stopped measured recent listeners host.
  destruct (stop_sends_one now w) as [Hret Hsent]. fold stopped in Hret, Hsent.
  destruct (worker_after_calls (cs ++ [BackendWorker.Stop now])
              BackendWorker.__init__ []) as (_ & Hm & _); [done|].
  unfold BackendWorker.after_calls in Hm. rewrite foldl_snoc in Hm.
  change (_measures (BackendWorker._profile_timing_measurer stopped.2)
          = recent) in Hm.
  destruct (worker_after_calls cs BackendWorker.__init__ []) as (_ & _ & Hnames);
    [done|].
  split; [done|]. split; [by rewrite Hsent, fmap_app|].
  split; [intros _; by rewrite Hsent, Hm|].
  split; [by rewrite start_sends_nothing|]. split; [exact Hnames|].
  subst host. rewrite registered_funcs. reflexivity.
Qed.

End TimingFacts.

Section TimingInstances.

Lemma profile_timing_reaches_listeners_witness :
  drop (length (BackendWorker.spec_measured_durations None
                  (Sample.timing_calls ++ [BackendWorker.Stop 10%Q])) - 120)
    (BackendWorker.spec_measured_durations None
       (Sample.timing_calls ++ [BackendWorker.Stop 10%Q])) ≠ []
  ∧ BackendWorker.sent_msgs
      (BackendWorker.stop_profile_timing 10%Q
         (BackendWorker.after_calls Sample.timing_calls BackendWorker.__init__)).2
    = BackendWorker.sent_msgs
        (BackendWorker.after_calls Sample.timing_calls BackendWorker.__init__)
      ++ [("_profile_timing",
           (foldr Qplus 0 [2 - 0; 10 - 6] / inject_Z 2)%Q)].
Proof.
  assert (drop (length (BackendWorker.spec_measured_durations None
                          (Sample.timing_calls ++ [BackendWorker.Stop 10%Q])) - 120)
            (BackendWorker.spec_measured_durations None
               (Sample.timing_calls ++ [BackendWorker.Stop 10%Q])) ≠ [])
    as Hne by discriminate.
  split; [exact Hne|].
  exact (proj1 (proj2 (proj2
    (profile_timing_reaches_listeners (U := unit) Sample.timing_calls
       10%Q 0%Q [] tt))) Hne).
Defined.

End TimingInstances.

(** ** The arena *)

Section ArenaFacts.

(** A handle just issued resolves to the bytes it was issued for. *)
Lemma arena_get_fresh (d : bytes) (h : Arena.t) :
  get_data (add_data d h).1 (add_data d h).2 = Some d.
Proof.
  simpl. unfold Arena.arena_get_data, Arena.arena_add_data. simpl.
  rewrite lookup_insert_eq. simpl. by rewrite !N.eqb_refl.
Qed.

End ArenaFacts.

(** ** The properties at concrete inputs *)

Section Instances.
Import BackendConnectionData.

Lemma add_face_mark_checks_instance_witness :
  (isinstance_FaceMark (PyStr "mark" : pyobj nat) = None
   ∧ isinstance_FaceMark (PyFaceMark 7%nat) = Some 7%nat)
  ∧ (add_face_mark (PyStr "mark") Sample.bound).1
    = Raise (ValueError "face_mark must be an instance of FaceMark")
  ∧ (get_face_mark_list (add_face_mark (PyFaceMark 7%nat) Sample.bound).2).1
    = Ret [7%nat].
Proof.
  pose proof (add_face_mark_checks_instance
                (PyStr "mark") (PyFaceMark 7%nat) 7%nat Sample.bound) as [Hbad Hgood].
  split; [by split|]. split.
  - exact (f_equal fst (proj1 (Hbad eq_refl))).
  - exact (proj2 (Hgood eq_refl)).
Defined.

Lemma set_image_get_image_round_trip_witness :
  (_weak_heap Sample.bound.2 = Some 0%nat ∧ np.well_formed Sample.image)
  ∧ get_image (Some "raw") Sample.with_image
    = (Ret (Some Sample.image), Sample.with_image).
Proof.
  split; [by split|].
  refine (proj2 (proj2 (proj2
    (set_image_get_image_round_trip Sample.heaps Sample.bound.2 0%nat "raw"
       Sample.image eq_refl eq_refl))) Sample.with_image.1 _).
  vm_compute. reflexivity.
Defined.

Lemma unbound_envelope_fails_witness :
  (_weak_heap_refs Sample.with_blob.2 !! "blob" = Some (Arena.mk_handle 0 2 0)
   ∧ BackendConnection.read 0%Q
       (BackendConnection.after_all
          [BackendConnection.Write Sample.with_blob.2]
          (BackendConnection.__init__ false))
     = (Some Sample.received.2, Sample.read_once)
   ∧ _weak_heap_refs Sample.received.2 !! "blob" = Some (Arena.mk_handle 0 2 0))
  ∧ get_file "blob" Sample.received
    = (Raise (none_has_no_attribute "get_data"), Sample.received)
  ∧ get_image (Some "blob") Sample.received
    = (Raise (none_has_no_attribute "get_data"), Sample.received)
  ∧ get_file "blob" (Sample.heaps, Sample.received.2)
    = (Raise (none_has_no_attribute "get_data"), (Sample.heaps, Sample.received.2)).
Proof.
  assert (_weak_heap_refs Sample.with_blob.2 !! "blob"
          = Some (Arena.mk_handle 0 2 0)) as E by (vm_compute; reflexivity).
  assert (BackendConnection.read 0%Q
            (BackendConnection.after_all
               [BackendConnection.Write Sample.with_blob.2]
               (BackendConnection.__init__ false))
          = (Some Sample.received.2, Sample.read_once)) as Hread
    by (vm_compute; reflexivity).
  assert (_weak_heap_refs Sample.received.2 !! "blob"
          = Some (Arena.mk_handle 0 2 0)) as E' by (vm_compute; reflexivity).
  destruct (unbound_envelope_fails Sample.with_blob.1 Sample.with_blob.2 false
              [BackendConnection.Write Sample.with_blob.2] 0%Q
              Sample.received.2 Sample.read_once "blob" (Arena.mk_handle 0 2 0))
    as [Hloads Hgot].
  destruct (Hloads E) as (_ & Hf & Hi & _).
  destruct (unbound_envelope_fails Sample.heaps Sample.with_blob.2 false
              [BackendConnection.Write Sample.with_blob.2] 0%Q
              Sample.received.2 Sample.read_once "blob" (Arena.mk_handle 0 2 0))
    as [_ Hgot'].
  destruct (Hgot' Hread E') as (_ & Hf' & _).
  split; [by repeat split|]. split; [exact Hf|]. split; [exact Hi | exact Hf'].
Defined.

(** The claim C6 as the specification words it fails on a received
    envelope that carries a file handle under ["blob"] and no image
    metadata: before a heap is bound, [get_image("blob")] raises instead of
    returning [None]. *)
Lemma get_image_absent_counterexample :
  _weak_heap_image_infos Sample.received.2 !! "blob" = None
  ∧ (get_image (Some "blob") Sample.received).1
    = Raise (none_has_no_attribute "get_data")
  ∧ (get_image (Some "blob") Sample.received).1 ≠ Ret None.
Proof.
  split; [vm_compute; reflexivity|].
  assert ((get_image (Some "blob") Sample.received).1
          = Raise (none_has_no_attribute "get_data")) as E
    by (vm_compute; reflexivity).
  split; [exact E|]. rewrite E. discriminate.
Qed.

Lemma absent_results_witness :
  (forallb (λ c, negb (History.sets_file "other" c)) Sample.history = true
   ∧ _weak_heap_refs Sample.with_empty.2 !! "other" = None
   ∧ _weak_heap_image_infos Sample.with_empty.2 !! "other" = None
   ∧ _weak_heap_refs Sample.with_empty.2 !! "empty" = Some (Arena.mk_handle 0 0 0)
   ∧ _weak_heap Sample.with_empty.2 = Some 0%nat
   ∧ get_data (Arena.mk_handle 0 0 0) (Sample.with_empty.1 0%nat) = Some [])
  ∧ (get_file "other"
       (History.after_all Sample.history (Sample.heaps, Sample.fresh))).1
    = Ret None
  ∧ get_file "other" Sample.with_empty = (Ret None, Sample.with_empty)
  ∧ get_image (Some "other") Sample.with_empty = (Ret None, Sample.with_empty)
  ∧ get_file "empty" Sample.with_empty = (Ret (Some []), Sample.with_empty).
Proof.
  assert (forallb (λ c, negb (History.sets_file "other" c)) Sample.history = true)
    as Hh by (vm_compute; reflexivity).
  assert (_weak_heap_refs Sample.with_empty.2 !! "other" = None)
    as Hr by (vm_compute; reflexivity).
  assert (_weak_heap_image_infos Sample.with_empty.2 !! "other" = None)
    as Hi by (vm_compute; reflexivity).
  assert (_weak_heap_refs Sample.with_empty.2 !! "empty"
          = Some (Arena.mk_handle 0 0 0)) as He by (vm_compute; reflexivity).
  assert (get_data (Arena.mk_handle 0 0 0) (Sample.with_empty.1 0%nat) = Some [])
    as Hd by (vm_compute; reflexivity).
  destruct (absent_results 1 Sample.history Sample.with_empty.1
              Sample.with_empty.2 "other" "empty" (Arena.mk_handle 0 0 0) 0%nat)
    as (Ha & Hb & _ & Hc & Hf).
  split; [by repeat split|].
  split; [|split; [|split]].
  - exact (f_equal fst (Ha Hh)).
  - exact (Hb Hr).
  - exact (Hc Hi (or_intror Hr)).
  - exact (proj1 (Hf He eq_refl Hd)).
Defined.

Lemma sends_collapse_to_one_edge_witness :
  (1 ≤ 3)%nat
  ∧ (BackendSignal.recv (BackendSignal.send_n 3 BackendSignal.__init__)).1 = true
  ∧ (BackendSignal.recv
       (BackendSignal.recv (BackendSignal.send_n 3 BackendSignal.__init__)).2).1
    = false.
Proof.
  assert (1 ≤ 3)%nat as Hn by lia.
  destruct (sends_collapse_to_one_edge 3 BackendSignal.__init__ Hn)
    as (H1 & H2 & _).
  split; [exact Hn|]. split; [exact H1 | exact H2].
Defined.

Lemma set_file_shares_names_with_set_image_witness :
  (_weak_heap Sample.bound.2 = Some 0%nat ∧ "other" ≠ "raw")
  ∧ get_image (Some "raw") Sample.overwritten
    = (Ret (Some (np.mk_ndarray [2; 2]%N np.uint8 ["v"; "w"; "x"; "y"]%byte)),
       Sample.overwritten)
  ∧ _weak_heap_refs Sample.overwritten.2 !! "other"
    = _weak_heap_refs Sample.with_image.2 !! "other".
Proof.
  assert ("other" ≠ "raw") as Hne by discriminate.
  destruct (set_file_shares_names_with_set_image Sample.heaps Sample.bound.2
              0%nat "raw" Sample.image Sample.five "other" eq_refl Hne)
    as (_ & _ & Hget & _ & _ & Hr & _).
  split; [by split|]. split.
  - refine (proj1 (Hget Sample.overwritten.1 _)). vm_compute. reflexivity.
  - exact Hr.
Defined.

(** With fewer new bytes than the stale shape asks for, what [np.ndarray]
    makes of them is its [TypeError]. *)
Example get_image_short_buffer :
  (get_image (Some "raw") (set_file "raw" ["x"]%byte Sample.with_image).2).1
  = Raise (TypeError "buffer is too small for requested array").
Proof. vm_compute. reflexivity. Qed.

End Instances.

(** * Further properties of the envelope *)

Section SessionFacts.
Context {FaceMark Float : Type}.
Context {H Ref : Type} `{!WeakHeap H Ref}.
Import BackendConnectionData.
Abbreviation bcd := (BackendConnectionData.t FaceMark Float Ref).
Abbreviation world := (BackendConnectionData.world FaceMark Float H Ref).
Abbreviation step := (Session.call FaceMark Float).
Implicit Types (hs : heap_id → H) (self : bcd) (w : world) (name : string).
Implicit Types (c : step) (cs : list step).

(** The envelope a [History] call leaves behind, case by case. *)
Ltac history_cases c hs self :=
  let l := fresh "l" in
  let Eh := fresh "Eh" in
  destruct c as [l|?n ?d|?n|?n ?image|?n|?o|]; unfold History.after;
  [ | destruct (_weak_heap self) as [l|] eqn:Eh;
      [rewrite (set_file_bound _ _ _ _ l Eh) | rewrite (set_file_unbound _ _ _ _ Eh)]
    | rewrite get_file_state
    | destruct (_weak_heap self) as [l|] eqn:Eh;
      [rewrite (set_image_bound _ _ _ _ l Eh) | rewrite (set_image_unbound _ _ _ _ Eh)]
    | rewrite get_image_state
    | unfold add_face_mark; simpl; destruct (isinstance_FaceMark _)
    | ].

(** What one step does to the fields that are not dictionaries. *)
Lemma session_step c hs self :
  let self' := (Session.after c (hs, self)).2 in
  _uid self' = _uid self
  ∧ _is_frame_reemitted self'
    = from_option Some (_is_frame_reemitted self) (Session.sets_is_frame_reemitted c)
  ∧ _frame_name self'
    = from_option Some (_frame_name self) (Session.sets_frame_name c)
  ∧ _frame_count self'
    = from_option Some (_frame_count self) (Session.sets_frame_count c)
  ∧ _frame_num self'
    = from_option Some (_frame_num self) (Session.sets_frame_num c)
  ∧ _frame_fps self'
    = from_option Some (_frame_fps self) (Session.sets_frame_fps c)
  ∧ _frame_timestamp self'
    = from_option Some (_frame_timestamp self) (Session.sets_frame_timestamp c)
  ∧ _merged_frame_name self'
    = from_option Some (_merged_frame_name self) (Session.sets_merged_frame_name c)
  ∧ _face_mark_list self'
    = _face_mark_list self ++ option_list (Session.adds_face_mark c)
  ∧ _weak_heap self' = from_option id (_weak_heap self) (Session.rebinds c).
Proof.
  cbv zeta.
  destruct c as [c| | | | | | |];
    [|simpl; rewrite ?app_nil_r; by repeat split..].
  unfold Session.after.
  history_cases c hs self; simpl; rewrite ?app_nil_r; by repeat split.
Qed.

(** A field that each step either sets or leaves alone holds, after a
    session, what the last step that set it gave it. *)
Lemma last_write_wins {A B} (pick : step → option A) (inj : A → B)
    (proj : bcd → B) :
  (∀ c w, proj (Session.after c w).2 = from_option inj (proj w.2) (pick c)) →
  ∀ cs w, proj (Session.after_all cs w).2
          = from_option inj (proj w.2) (list.last (omap pick cs)).
Proof.
  intros Hstep cs. unfold Session.after_all.
  induction cs as [|c cs IH] using rev_ind; intros w; [done|].
  rewrite foldl_snoc, Hstep, omap_app. simpl.
  destruct (pick c) as [v|]; simpl.
  - by rewrite last_snoc.
  - by rewrite app_nil_r, IH.
Qed.

(** X1: the uid given to [__init__] is what [get_uid] returns after any
    session: no method, transfer included, changes it. *)
Theorem uid_never_changes cs w hs (uid : Z) :
  (get_uid (Session.after_all cs w)).1 = (get_uid w).1
  ∧ (get_uid (Session.after_all cs ((hs, __init__ uid) : world))).1 = Ret uid.
Proof.
  assert (∀ w', _uid (Session.after_all cs w').2 = _uid w'.2) as Huid.
  { unfold Session.after_all.
    induction cs as [|c cs IH] using rev_ind; intros w'; [done|].
    rewrite foldl_snoc. destruct (foldl _ w' cs) as [hs' self'] eqn:E.
    rewrite (proj1 (session_step c hs' self')).
    specialize (IH w'). by rewrite E in IH. }
  unfold get_uid, self_, gets. simpl. split; f_equal; apply Huid.
Qed.

(** X2: after any session on a fresh envelope each scalar getter returns
    the argument of the last call of its own setter, or [None] when the
    setter was never called; the other calls, transfer included, do not
    interfere. *)
Theorem scalar_fields_hold_last_value cs hs (uid : Z) :
  let w := Session.after_all cs ((hs, __init__ uid) : world) in
  (get_is_frame_reemitted w).1
    = Ret (list.last (omap Session.sets_is_frame_reemitted cs))
  ∧ (get_frame_name w).1 = Ret (list.last (omap Session.sets_frame_name cs))
  ∧ (get_frame_count w).1 = Ret (list.last (omap Session.sets_frame_count cs))
  ∧ (get_frame_num w).1 = Ret (list.last (omap Session.sets_frame_num cs))
  ∧ (get_frame_fps w).1 = Ret (list.last (omap Session.sets_frame_fps cs))
  ∧ (get_frame_timestamp w).1
    = Ret (list.last (omap Session.sets_frame_timestamp cs))
  ∧ (get_merged_frame_name w).1
    = Ret (list.last (omap Session.sets_merged_frame_name cs)).
Proof.
  intros w. subst w.
  unfold get_is_frame_reemitted, get_frame_name, get_frame_count, get_frame_num,
    get_frame_fps, get_frame_timestamp, get_merged_frame_name, self_, gets.
  simpl.
  repeat split; f_equal.
  all: match goal with
       | |- ?proj (Session.after_all ?l ?w0).2 = list.last (omap ?pick ?l) =>
           rewrite (last_write_wins pick Some proj);
             [by destruct (list.last (omap pick l))|]
       end.
  all: intros c [hs' self']; apply (session_step c hs' self').
Qed.

(** X3: the face mark list after a session is the list before it followed
    by the [FaceMark] arguments of its [add_face_mark] calls, in call
    order; rejected arguments leave no trace and no other call touches the
    list. *)
Theorem face_marks_accumulate_in_order cs w :
  (get_face_mark_list (Session.after_all cs w)).1
  = Ret (_face_mark_list w.2 ++ omap Session.adds_face_mark cs).
Proof.
  unfold get_face_mark_list, self_, gets. simpl. f_equal.
  unfold Session.after_all. revert w.
  induction cs as [|c cs IH] using rev_ind; intros w; [by rewrite app_nil_r|].
  rewrite foldl_snoc, omap_app, app_assoc, <- IH.
  destruct (foldl _ w cs) as [hs' self'].
  destruct (session_step c hs' self') as (_&_&_&_&_&_&_&_&Hf&_).
  rewrite Hf. simpl. by destruct (Session.adds_face_mark c).
Qed.

(** X4: whether an envelope is bound, and to which heap, is decided by the
    last [assign_weak_heap] or transfer of the session alone: bound to [l]
    after [assign_weak_heap(l)], unbound after a transfer, as before when
    the session has neither. *)
Theorem binding_follows_last_rebind cs w :
  _weak_heap (Session.after_all cs w).2
  = default (_weak_heap w.2) (list.last (omap Session.rebinds cs)).
Proof.
  apply (last_write_wins Session.rebinds id _weak_heap).
  intros c [hs' self']. apply (session_step c hs' self').
Qed.

Lemma infos_within_refs_step c w :
  dom (_weak_heap_image_infos w.2) ⊆@{gset string} dom (_weak_heap_refs w.2) →
  dom (_weak_heap_image_infos (Session.after c w).2)
    ⊆@{gset string} dom (_weak_heap_refs (Session.after c w).2).
Proof.
  destruct w as [hs self]. simpl. intros Hinv.
  destruct c as [c| | | | | | |]; [|done..].
  unfold Session.after.
  history_cases c hs self; simpl; rewrite ?dom_insert_L; try done.
  - etrans; [exact Hinv | apply union_subseteq_r].
  - by apply union_mono_l.
Qed.

(** X5: on an envelope built by [__init__] and any session, every name
    that has image metadata also has a file handle: [set_image] records the
    metadata only after [set_file] has stored the handle, and nothing
    removes a handle. *)
Theorem image_metadata_has_file_handle cs hs (uid : Z) :
  let self := (Session.after_all cs ((hs, __init__ uid) : world)).2 in
  dom (_weak_heap_image_infos self) ⊆@{gset string} dom (_weak_heap_refs self).
Proof.
  unfold Session.after_all.
  induction cs as [|c cs IH] using rev_ind; [done|].
  rewrite foldl_snoc. by apply infos_within_refs_step.
Qed.

Lemma heaps_after_step c hs self :
  (Session.stores c = false → (Session.after c (hs, self)).1 = hs)
  ∧ (_weak_heap self = None → (Session.after c (hs, self)).1 = hs)
  ∧ (∀ l l', _weak_heap self = Some l → l' ≠ l →
       (Session.after c (hs, self)).1 l' = hs l').
Proof.
  destruct c as [c| | | | | | |]; [|done..].
  unfold Session.after.
  history_cases c hs self; simpl; repeat split; try done.
  all: intros; simplify_eq; by rewrite fn_lookup_insert_ne.
Qed.

(** X6: [get_file] and [get_image] are reads: whether they return data,
    return [None] or raise, they leave the envelope and every heap exactly
    as they were, so asking twice gives the same answer. *)
Theorem reads_change_nothing name (oname : option string) w :
  (get_file name w).2 = w
  ∧ (get_image oname w).2 = w
  ∧ get_file name (get_file name w).2 = get_file name w
  ∧ get_image oname (get_image oname w).2 = get_image oname w
  ∧ get_image oname (get_file name w).2 = get_image oname w.
Proof.
  rewrite get_file_state, get_image_state. by repeat split.
Qed.

(** X7: the heaps are written by [set_file] and [set_image] only, and only
    the heap the envelope is bound to: a session without those two calls
    leaves every heap as it was, any call on an unbound envelope does, and
    a call on an envelope bound to [l] leaves every other heap alone. *)
Theorem heaps_written_only_by_stores cs w c hs self unbound l l' :
  (forallb (λ c, negb (Session.stores c)) cs = true →
     (Session.after_all cs w).1 = w.1)
  ∧ (_weak_heap unbound = None → (Session.after c (hs, unbound)).1 = hs)
  ∧ (_weak_heap self = Some l → l' ≠ l →
     (Session.after c (hs, self)).1 l' = hs l').
Proof.
  split; [|split].
  - unfold Session.after_all. revert w.
    induction cs as [|c0 cs IH]; intros w Hcs; [done|].
    simpl in Hcs. apply andb_true_iff in Hcs as [Hc Hcs]. simpl.
    rewrite IH by done. destruct w as [hs0 self0].
    apply (proj1 (heaps_after_step c0 hs0 self0)). by apply negb_true_iff.
  - apply (proj1 (proj2 (heaps_after_step c hs unbound))).
  - intros Eh Hne. by apply (proj2 (proj2 (heaps_after_step c hs self)) l l').
Qed.

(** X8: file round trip.  On a bound envelope [set_file(name, d)] succeeds;
    [get_file(name)] then returns [d] as long as the heap resolves the
    issued handle to [d], in the same process and equally in a process that
    received the envelope and bound it to a heap [l'] of its own that
    resolves the handle. *)
Theorem set_file_get_file_round_trip hs self l name (d : bytes) hs' l' :
  _weak_heap self = Some l →
  let stored := set_file name d (hs, self) in
  let ref := (add_data d (hs l)).1 in
  stored.1 = Ret tt
  ∧ (get_data ref (stored.2.1 l) = Some d →
     get_file name stored.2 = (Ret (Some d), stored.2))
  ∧ (get_data ref (hs' l') = Some d →
     let received :=
       (assign_weak_heap l' (hs', pickle.loads (pickle.dumps stored.2.2))).2 in
     get_file name received = (Ret (Some d), received)).
Proof.
  intros Eh stored ref. subst stored.
  rewrite (set_file_bound _ _ _ _ l Eh).
  split; [done|]. split.
  - intros Hget. simpl snd in *. simpl fst in *.
    erewrite get_file_bound; [|by simpl; rewrite lookup_insert_eq|by simpl].
    fold ref. by rewrite Hget.
  - intros Hget received. subst received.
    unfold assign_weak_heap, modify. simpl snd.
    erewrite (get_file_bound _ _ _ ref l');
      [|by simpl; rewrite lookup_insert_eq|by simpl].
    by rewrite Hget.
Qed.

(** X9: on an envelope with no heap bound, fresh from [__init__] or just
    received, [set_file] and [set_image] raise the [AttributeError] of a
    call on [None] and change nothing: no handle, no image metadata and no
    heap write. *)
Theorem unbound_store_fails hs (uid : Z) (o : bcd) name (d : bytes)
    (image : np.ndarray) :
  let fresh : bcd := __init__ uid in
  let got := pickle.loads (pickle.dumps o) in
  set_file name d (hs, fresh)
    = (Raise (none_has_no_attribute "add_data"), (hs, fresh))
  ∧ set_image name image (hs, fresh)
    = (Raise (none_has_no_attribute "add_data"), (hs, fresh))
  ∧ set_file name d (hs, got)
    = (Raise (none_has_no_attribute "add_data"), (hs, got))
  ∧ set_image name image (hs, got)
    = (Raise (none_has_no_attribute "add_data"), (hs, got)).
Proof.
  intros fresh got.
  rewrite !set_file_unbound, !set_image_unbound by done. by repeat split.
Qed.

(** X10: an image crosses processes.  The sender stores it with
    [set_image]; the receiver gets the envelope through pickle, binds a
    heap [l'] of its own and, as long as that heap resolves the sender's
    handle to the pixel bytes, [get_image] returns the very image. *)
Theorem image_crosses_processes hs self l name (image : np.ndarray) hs' l' :
  _weak_heap self = Some l →
  np.well_formed image →
  get_data (add_data (np.data image) (hs l)).1 (hs' l') = Some (np.data image) →
  let sent := (set_image name image (hs, self)).2.2 in
  let received := (assign_weak_heap l' (hs', pickle.loads (pickle.dumps sent))).2 in
  get_image (Some name) received = (Ret (Some image), received).
Proof.
  intros Eh Hwf Hget sent received. subst sent received.
  rewrite (set_image_bound _ _ _ _ l Eh).
  unfold assign_weak_heap, modify. simpl snd.
  rewrite get_image_some.
  erewrite (get_file_bound _ _ _ _ l');
    [|by simpl; rewrite lookup_insert_eq|by simpl].
  rewrite Hget. simpl. rewrite lookup_insert_eq.
  by rewrite ndarray_of_own_buffer.
Qed.

(** X11: when the bound heap no longer resolves a recorded handle (the
    slot was overwritten), [get_file] and [get_image] return [None]; they
    do not raise, and [get_image] does so whatever metadata is recorded. *)
Theorem stale_handle_reads_absent hs self l name ref :
  _weak_heap self = Some l →
  _weak_heap_refs self !! name = Some ref →
  get_data ref (hs l) = None →
  get_file name (hs, self) = (Ret None, (hs, self))
  ∧ get_image (Some name) (hs, self) = (Ret None, (hs, self)).
Proof.
  intros Eh E Hget.
  assert (get_file name (hs, self) = (Ret None, (hs, self))) as Hf
    by (by rewrite (get_file_bound _ _ _ ref l E Eh), Hget).
  split; [done|]. by rewrite get_image_some, Hf.
Qed.

(** X12: whatever array [get_image] returns carries the shape and element
    type recorded for the name and exactly the bytes they call for, the
    first of the buffer [get_file] returns; the call changes nothing. *)
Theorem get_image_result_well_formed w name (arr : np.ndarray) w' :
  get_image (Some name) w = (Ret (Some arr), w') →
  w' = w
  ∧ _weak_heap_image_infos w.2 !! name = Some (np.shape arr, np.dtype_of arr)
  ∧ np.well_formed arr
  ∧ ∃ buffer,
      (get_file name w).1 = Ret (Some buffer)
      ∧ np.data arr
        = take (N.to_nat (np.nbytes (np.shape arr) (np.dtype_of arr))) buffer.
Proof.
  destruct w as [hs self]. rewrite get_image_some.
  destruct (get_file name (hs, self)) as [[[buffer|]|e] w0];
    [|intros; simplify_eq..].
  destruct (_weak_heap_image_infos self !! name) as [[shape dtype]|] eqn:Ei;
    [|intros; simplify_eq].
  unfold np.ndarray_of_buffer.
  destruct (N.ltb_spec (N.of_nat (length buffer)) (np.nbytes shape dtype))
    as [|Hle]; [intros; simplify_eq|].
  intros [= <- <-]. simpl. split; [done|]. split; [done|]. split.
  - unfold np.well_formed. simpl. rewrite length_take. lia.
  - by exists buffer.
Qed.

(** X13: the heap binding is all a transfer loses.  Binding a received
    envelope to the heap the sender's was bound to gives back the sender's
    envelope, field for field; and a second transfer changes nothing more
    than the first. *)
Theorem rebinding_restores_envelope hs (o : bcd) l :
  _weak_heap o = Some l →
  (assign_weak_heap l (hs, pickle.loads (pickle.dumps o))).2 = (hs, o)
  ∧ pickle.loads (pickle.dumps (pickle.loads (pickle.dumps o)))
    = pickle.loads (pickle.dumps o).
Proof.
  intros Eh. destruct o. simpl in *. by subst.
Qed.

End SessionFacts.

(** * Further properties of the connection and the signal *)

Section ConnectionMore.
Context {FaceMark Float Ref : Type}.
Abbreviation conn := (BackendConnection.t FaceMark Float Ref).
Abbreviation envelope := (BackendConnectionData.t FaceMark Float Ref).
Abbreviation ccall := (BackendConnection.call FaceMark Float Ref).
Import MPSPSCMRRingData.

(** Every record in the table of a connection is the pickle of an envelope
    some [write] was given. *)
Lemma records_written (multi_producer : bool) (ks : list ccall) slot i b :
  table (BackendConnection._rd
           (BackendConnection.after_all ks (BackendConnection.__init__ multi_producer)))
    !! slot = Some (i, b) →
  ∃ o, BackendConnection.Write o ∈ ks ∧ b = pickle.dumps o.
Proof.
  unfold BackendConnection.after_all. revert slot i b.
  induction ks as [|k ks IH] using rev_ind; intros slot i b; [done|].
  rewrite foldl_snoc.
  set (c := foldl _ _ ks) in *.
  assert (table (BackendConnection._rd c) !! slot = Some (i, b) →
          ∃ o, BackendConnection.Write o ∈ ks ++ [k] ∧ b = pickle.dumps o) as Hold.
  { intros E. destruct (IH _ _ _ E) as (o & Ho & ->).
    exists o. split; [|done]. apply elem_of_app. by left. }
  destruct k as [o|timeout| |id|timeout|bs]; simpl; try exact Hold.
  - rewrite lookup_insert. case_decide; [|exact Hold].
    intros [= <- <-]. exists o. split; [|done].
    apply elem_of_app. right. by apply list_elem_of_singleton.
  - unfold BackendConnection.read, read.
    destruct (wait_for_read timeout (BackendConnection._rd c)); exact Hold.
Qed.

(** X14: a connection hands out only what was written to it.  Whatever
    [read] or [get_by_id] returns, after any calls on a new connection, is
    the state of an envelope that some earlier [write] was given, with the
    heap binding removed and every other field as written. *)
Theorem connection_returns_written_envelopes
    (multi_producer : bool) (ks : list ccall) (timeout : Float) (id : Z)
    (got got' : envelope) (c' : conn) :
  let c := BackendConnection.after_all ks (BackendConnection.__init__ multi_producer) in
  (BackendConnection.read timeout c = (Some got, c') →
   ∃ o, BackendConnection.Write o ∈ ks
        ∧ got = BackendConnectionData.__getstate__ o
        ∧ BackendConnectionData._weak_heap got = None)
  ∧ (BackendConnection.get_by_id id c = Some got' →
     ∃ o, BackendConnection.Write o ∈ ks
          ∧ got' = BackendConnectionData.__getstate__ o
          ∧ BackendConnectionData._weak_heap got' = None).
Proof.
  intros c. split.
  - unfold BackendConnection.read, read, get_by_id.
    destruct (wait_for_read timeout (BackendConnection._rd c)); [|done].
    destruct (table (BackendConnection._rd c) !! _) as [[i b]|] eqn:E; [|done].
    case_decide; [|done]. intros [= <- _].
    destruct (records_written multi_producer ks _ i b E) as (o & Ho & ->).
    by exists o.
  - unfold BackendConnection.get_by_id, get_by_id.
    destruct (table (BackendConnection._rd c) !! _) as [[i b]|] eqn:E; [|done].
    case_decide; [|done]. intros [= <-].
    destruct (records_written multi_producer ks _ i b E) as (o & Ho & ->).
    by exists o.
Qed.


End ConnectionMore.

Section SignalMore.
Import BackendSignal.

(** X16: after any sequence of [send] and [recv] calls, [recv] returns
    true exactly when a [send] has happened with no [recv] after it, or,
    if the sequence has no [recv] at all, when the flag was set to begin
    with: an edge is reported once, to the first [recv] after it. *)
Theorem recv_reports_unconsumed_send (ops : list SignalTrace.op) (s : t) :
  (recv (SignalTrace.after_all ops s)).1 = true
  ↔ (∃ before later, ops = before ++ SignalTrace.Send :: later
                     ∧ SignalTrace.Recv ∉ later)
    ∨ (_ev s = true ∧ SignalTrace.Recv ∉ ops).
Proof.
  unfold SignalTrace.after_all.
  destruct ops as [|o ops _] using rev_ind.
  - simpl. split.
    + intros E. right. split; [by destruct s as [[]]|]. apply not_elem_of_nil.
    + intros [(before & later & E & _)|[E _]]; [by destruct before|].
      by destruct s as [[]]; simpl in *.
  - rewrite foldl_snoc. destruct o; simpl.
    + split; [|done]. intros _. left. exists ops, []. split; [done|].
      apply not_elem_of_nil.
    + split.
      * by destruct (foldl _ s ops) as [[]].
      * intros [(before & later & E & Hno)|[_ Hno]].
        -- destruct later as [|x later _] using rev_ind.
           ++ apply app_inj_tail in E as [_ [=]].
           ++ rewrite app_comm_cons, app_assoc in E.
              apply app_inj_tail in E as [_ <-].
              exfalso. apply Hno, elem_of_app. right. by apply list_elem_of_singleton.
        -- exfalso. apply Hno, elem_of_app. right. by apply list_elem_of_singleton.
Qed.

End SignalMore.

(** ** The further properties at concrete inputs *)

Section MoreInstances.
Import BackendConnectionData.

Lemma heaps_written_only_by_stores_witness :
  (forallb (λ c, negb (Session.stores c)) Sample.quiet = true
   ∧ _weak_heap Sample.fresh = None
   ∧ _weak_heap Sample.bound.2 = Some 0%nat
   ∧ 1%nat ≠ 0%nat)
  ∧ (Session.after_all Sample.quiet Sample.bound).1 = Sample.bound.1
  ∧ (Session.after (Session.Method (History.SetFile "a" Sample.ten))
       (Sample.heaps, Sample.fresh)).1 = Sample.heaps
  ∧ (Session.after (Session.Method (History.SetFile "a" Sample.ten))
       (Sample.heaps, Sample.bound.2)).1 1%nat = Sample.heaps 1%nat.
Proof.
  assert (1%nat ≠ 0%nat) as Hne by discriminate.
  destruct (heaps_written_only_by_stores Sample.quiet Sample.bound
              (Session.Method (History.SetFile "a" Sample.ten))
              Sample.heaps Sample.bound.2 Sample.fresh 0%nat 1%nat)
    as (Hq & Hu & Hb).
  split; [by repeat split|]. split; [exact (Hq eq_refl)|].
  split; [exact (Hu eq_refl) | exact (Hb eq_refl Hne)].
Defined.

Lemma set_file_get_file_round_trip_witness :
  (_weak_heap Sample.bound.2 = Some 0%nat
   ∧ get_data (Arena.mk_handle 0 2 0) (Sample.with_blob.1 0%nat)
     = Some ["x"; "y"]%byte)
  ∧ get_file "blob" Sample.with_blob
    = (Ret (Some ["x"; "y"]%byte), Sample.with_blob)
  ∧ get_file "blob" (assign_weak_heap 0%nat Sample.received).2
    = (Ret (Some ["x"; "y"]%byte), (assign_weak_heap 0%nat Sample.received).2).
Proof.
  assert (get_data (Arena.mk_handle 0 2 0) (Sample.with_blob.1 0%nat)
          = Some ["x"; "y"]%byte) as Hd by (vm_compute; reflexivity).
  destruct (set_file_get_file_round_trip Sample.heaps Sample.bound.2 0%nat
              "blob" ["x"; "y"]%byte Sample.with_blob.1 0%nat eq_refl)
    as (_ & Hsame & Hother).
  split; [by split|]. split; [exact (Hsame Hd) | exact (Hother Hd)].
Defined.

Lemma image_crosses_processes_witness :
  (_weak_heap Sample.bound.2 = Some 0%nat
   ∧ np.well_formed Sample.image
   ∧ get_data (Arena.mk_handle 0 4 0) (Sample.with_image.1 0%nat)
     = Some (np.data Sample.image))
  ∧ get_image (Some "raw")
      (assign_weak_heap 0%nat
         (Sample.with_image.1, pickle.loads (pickle.dumps Sample.with_image.2))).2
    = (Ret (Some Sample.image),
       (assign_weak_heap 0%nat
          (Sample.with_image.1, pickle.loads (pickle.dumps Sample.with_image.2))).2).
Proof.
  assert (get_data (Arena.mk_handle 0 4 0) (Sample.with_image.1 0%nat)
          = Some (np.data Sample.image)) as Hd by (vm_compute; reflexivity).
  split; [by repeat split|].
  exact (image_crosses_processes Sample.heaps Sample.bound.2 0%nat "raw"
           Sample.image Sample.with_image.1 0%nat eq_refl eq_refl Hd).
Defined.

Lemma stale_handle_reads_absent_witness :
  (_weak_heap Sample.wrapped.2 = Some 0%nat
   ∧ _weak_heap_refs Sample.wrapped.2 !! "a" = Some (Arena.mk_handle 0 10 0)
   ∧ get_data (Arena.mk_handle 0 10 0) (Sample.wrapped.1 0%nat) = None)
  ∧ get_file "a" Sample.wrapped = (Ret None, Sample.wrapped)
  ∧ get_image (Some "a") Sample.wrapped = (Ret None, Sample.wrapped).
Proof.
  assert (_weak_heap_refs Sample.wrapped.2 !! "a" = Some (Arena.mk_handle 0 10 0))
    as E by (vm_compute; reflexivity).
  assert (get_data (Arena.mk_handle 0 10 0) (Sample.wrapped.1 0%nat) = None)
    as Hd by (vm_compute; reflexivity).
  split; [by repeat split|].
  exact (stale_handle_reads_absent Sample.wrapped.1 Sample.wrapped.2 0%nat "a"
           (Arena.mk_handle 0 10 0) eq_refl E Hd).
Defined.

Lemma get_image_result_well_formed_witness :
  get_image (Some "raw") Sample.overwritten
    = (Ret (Some Sample.four_of_five), Sample.overwritten)
  ∧ _weak_heap_image_infos Sample.overwritten.2 !! "raw" = Some ([2; 2]%N, np.uint8)
  ∧ np.well_formed Sample.four_of_five.
Proof.
  assert (get_image (Some "raw") Sample.overwritten
          = (Ret (Some Sample.four_of_five), Sample.overwritten)) as Hg
    by (vm_compute; reflexivity).
  destruct (get_image_result_well_formed Sample.overwritten "raw"
              Sample.four_of_five Sample.overwritten Hg) as (_ & Hi & Hwf & _).
  split; [exact Hg|]. split; [exact Hi | exact Hwf].
Defined.

Lemma rebinding_restores_envelope_witness :
  _weak_heap Sample.with_blob.2 = Some 0%nat
  ∧ (assign_weak_heap 0%nat Sample.received).2 = Sample.with_blob.
Proof.
  split; [reflexivity|].
  exact (proj1 (rebinding_restores_envelope Sample.with_blob.1
                  Sample.with_blob.2 0%nat eq_refl)).
Defined.

Lemma connection_returns_written_envelopes_witness :
  (BackendConnection.read 0%Q
     (BackendConnection.after_all [BackendConnection.Write Sample.with_blob.2]
        (BackendConnection.__init__ false))
   = (Some Sample.received.2, Sample.read_once)
   ∧ BackendConnection.get_by_id 0
       (BackendConnection.after_all [BackendConnection.Write Sample.with_blob.2]
          (BackendConnection.__init__ false))
     = Some Sample.received.2)
  ∧ ∃ o, BackendConnection.Write o ∈ [BackendConnection.Write Sample.with_blob.2]
         ∧ Sample.received.2 = __getstate__ o
         ∧ _weak_heap Sample.received.2 = None.
Proof.
  assert (BackendConnection.read 0%Q
            (BackendConnection.after_all [BackendConnection.Write Sample.with_blob.2]
               (BackendConnection.__init__ false))
          = (Some Sample.received.2, Sample.read_once)) as Hread
    by (vm_compute; reflexivity).
  assert (BackendConnection.get_by_id 0
            (BackendConnection.after_all [BackendConnection.Write Sample.with_blob.2]
               (BackendConnection.__init__ false))
          = Some Sample.received.2) as Hid
    by (vm_compute; reflexivity).
  destruct (connection_returns_written_envelopes false
              [BackendConnection.Write Sample.with_blob.2] 0%Q 0
              Sample.received.2 Sample.received.2 Sample.read_once)
    as [Hr Hg].
  pose proof (Hg Hid) as _.
  split; [by split|]. exact (Hr Hread).
Defined.


End MoreInstances.
